(** * Idox planning-portal spider: a shallow embedding of
    [planning_applications/spiders/idox.py] and the properties of its
    crawl-and-extract workflow.

    Python values are modelled as the code has them: [str] as [string]
    (one character per code point below 256), [int] as [Z], [None]-able
    values as [option], dictionaries as [gmap] or as records of optional
    slots, generators as the list of values they yield together with the
    way they end (normal return or a raised exception). *)

From Stdlib Require Import ZArith Ascii String List Bool Lia.
From stdpp Require Import base option list strings gmap pretty.

Local Open Scope string_scope.
Local Open Scope Z_scope.

(** ** Python string primitives used by the spider *)

Module PyStr.

(** [str.isspace] on one character, for code points below 256. *)
Definition is_space (c : ascii) : bool :=
  let n := nat_of_ascii c in
  ((9 <=? n) && (n <=? 13) || (28 <=? n) && (n <=? 32)
   || (n =? 133) || (n =? 160))%nat.

Definition is_digit (c : ascii) : bool :=
  let n := nat_of_ascii c in ((48 <=? n) && (n <=? 57))%nat.

Definition digit_value (c : ascii) : Z := Z.of_nat (nat_of_ascii c) - 48.

(** ASCII lower-casing, enough for case-insensitive matching of the
    English day and month names. *)
Definition lower_char (c : ascii) : ascii :=
  let n := nat_of_ascii c in
  if ((65 <=? n) && (n <=? 90))%nat then ascii_of_nat (n + 32) else c.

Fixpoint lower (s : string) : string :=
  match s with
  | EmptyString => EmptyString
  | String c s' => String (lower_char c) (lower s')
  end.

Fixpoint lstrip (s : string) : string :=
  match s with
  | EmptyString => EmptyString
  | String c s' => if is_space c then lstrip s' else s
  end.

Fixpoint rstrip (s : string) : string :=
  match s with
  | EmptyString => EmptyString
  | String c s' =>
      match rstrip s' with
      | EmptyString => if is_space c then EmptyString else String c EmptyString
      | r => String c r
      end
  end.

(** [s.strip()] *)
Definition strip (s : string) : string := rstrip (lstrip s).

(** [s.startswith(p)] *)
Fixpoint startswith (p s : string) : bool :=
  match p, s with
  | EmptyString, _ => true
  | String a p', String b s' => if Ascii.eqb a b then startswith p' s' else false
  | String _ _, EmptyString => false
  end.

(** [needle in hay] *)
Fixpoint contains (needle hay : string) : bool :=
  startswith needle hay
  || match hay with
     | EmptyString => false
     | String _ hay' => contains needle hay'
     end.

(** [s.split(sep)] for a non-empty separator.  [skip] counts the
    characters of a separator occurrence still to be passed over and
    [cur] is the piece being collected. *)
Fixpoint split_go (sep s : string) (skip : nat) (cur : string) : list string :=
  match s with
  | EmptyString => [cur]
  | String c s' =>
      match skip with
      | S k => split_go sep s' k cur
      | O =>
          if startswith sep s
          then cur :: split_go sep s' (Nat.pred (String.length sep)) EmptyString
          else split_go sep s' O (cur +:+ String c EmptyString)
      end
  end.

Definition split (sep s : string) : list string := split_go sep s O EmptyString.

(** [s.replace(old, new)] for a non-empty [old]. *)
Fixpoint replace_go (old new s : string) (skip : nat) : string :=
  match s with
  | EmptyString => EmptyString
  | String c s' =>
      match skip with
      | S k => replace_go old new s' k
      | O =>
          if startswith old s
          then new +:+ replace_go old new s' (Nat.pred (String.length old))
          else String c (replace_go old new s' O)
      end
  end.

Definition replace (old new s : string) : string := replace_go old new s O.

(** Truthiness of a [str]. *)
Definition truthy (s : string) : bool :=
  match s with EmptyString => false | _ => true end.

End PyStr.

(** ** Exceptions and results *)

(** The exception classes the spider can raise. *)
Inductive exn : Type :=
| ValueError
| IndexError
| TypeError
| KeyError.

(** A Python call either returns a value or raises. *)
Inductive res (A : Type) : Type :=
| Return (a : A)
| Raise (e : exn).
Arguments Return {A} a.
Arguments Raise {A} e.

Definition res_bind {A B} (r : res A) (k : A -> res B) : res B :=
  match r with
  | Return a => k a
  | Raise e => Raise e
  end.

#[global] Instance exn_eq_dec : EqDecision exn.
Proof. solve_decision. Defined.

(** ** Calendar dates ([datetime.date], [datetime.datetime]) *)

Record date : Type := mkdate { year : Z; month : Z; day : Z }.

Record datetime : Type := mkdatetime {
  dt_year : Z; dt_month : Z; dt_day : Z;
  dt_hour : Z; dt_minute : Z; dt_second : Z }.

#[global] Instance date_eq_dec : EqDecision date.
Proof. solve_decision. Defined.

#[global] Instance datetime_eq_dec : EqDecision datetime.
Proof. solve_decision. Defined.

(** [dt.date()] *)
Definition datetime_date (dt : datetime) : date :=
  mkdate (dt_year dt) (dt_month dt) (dt_day dt).

(** [a > b] on dates: the order of (year, month, day). *)
Definition date_gtb (a b : date) : bool :=
  (year b <? year a)
  || (year a =? year b)
     && ((month b <? month a)
         || (month a =? month b) && (day b <? day a)).

Definition date_le (a b : date) : Prop :=
  year a < year b
  \/ year a = year b /\ (month a < month b \/ month a = month b /\ day a <= day b).

Module Calendar.

Definition is_leap (y : Z) : bool :=
  (y mod 4 =? 0) && (negb (y mod 100 =? 0) || (y mod 400 =? 0)).

Definition DAYS_IN_MONTH (m : Z) : Z :=
  match m with
  | 1 => 31 | 2 => 28 | 3 => 31 | 4 => 30 | 5 => 31 | 6 => 30
  | 7 => 31 | 8 => 31 | 9 => 30 | 10 => 31 | 11 => 30 | 12 => 31
  | _ => -1
  end.

Definition DAYS_BEFORE_MONTH (m : Z) : Z :=
  match m with
  | 1 => 0 | 2 => 31 | 3 => 59 | 4 => 90 | 5 => 120 | 6 => 151
  | 7 => 181 | 8 => 212 | 9 => 243 | 10 => 273 | 11 => 304 | 12 => 334
  | _ => -1
  end.

Definition days_in_month (y m : Z) : Z :=
  if (m =? 2) && is_leap y then 29 else DAYS_IN_MONTH m.

Definition days_before_year (y : Z) : Z :=
  let y' := y - 1 in y' * 365 + y' / 4 - y' / 100 + y' / 400.

Definition days_before_month (y m : Z) : Z :=
  DAYS_BEFORE_MONTH m + (if (2 <? m) && is_leap y then 1 else 0).

(** The date constructor accepts exactly these triples. *)
Definition valid_ymd (y m d : Z) : bool :=
  (1 <=? y) && (y <=? 9999) && (1 <=? m) && (m <=? 12)
  && (1 <=? d) && (d <=? days_in_month y m).

Definition ymd2ord (y m d : Z) : Z :=
  days_before_year y + days_before_month y m + d.

Definition DI400Y : Z := 146097.
Definition DI100Y : Z := 36524.
Definition DI4Y : Z := 1461.

(** [date.fromordinal], after CPython's [_ord2ymd]. *)
Definition ord2ymd (ordinal : Z) : date :=
  let n := ordinal - 1 in
  let n400 := n / DI400Y in let n := n mod DI400Y in
  let y := n400 * 400 + 1 in
  let n100 := n / DI100Y in let n := n mod DI100Y in
  let n4 := n / DI4Y in let n := n mod DI4Y in
  let n1 := n / 365 in let n := n mod 365 in
  let y := y + n100 * 100 + n4 * 4 + n1 in
  if (n1 =? 4) || (n100 =? 4) then mkdate (y - 1) 12 31
  else
    let leapyear := (n1 =? 3) && (negb (n4 =? 24) || (n100 =? 3)) in
    let m := Z.shiftr (n + 50) 5 in
    let preceding := DAYS_BEFORE_MONTH m + (if (2 <? m) && leapyear then 1 else 0) in
    if n <? preceding then
      let m' := m - 1 in
      let preceding' :=
        preceding - (DAYS_IN_MONTH m' + (if (m' =? 2) && leapyear then 1 else 0)) in
      mkdate y m' (n - preceding' + 1)
    else mkdate y m (n - preceding + 1).

(** Ordinal of the Monday that starts ISO week 1 of year [y]. *)
Definition isoweek1monday (y : Z) : Z :=
  let firstday := ymd2ord y 1 1 in
  let firstweekday := (firstday + 6) mod 7 in
  let week1monday := firstday - firstweekday in
  if 3 <? firstweekday then week1monday + 7 else week1monday.

(** [datetime.fromisocalendar(y, week, day).date()] for an in-range
    week and day. *)
Definition fromisocalendar (y week wday : Z) : date :=
  ord2ymd (isoweek1monday y + (week - 1) * 7 + (wday - 1)).

End Calendar.

(** ** [datetime.strptime]

    CPython turns a format into a regular expression (one group per
    directive, every run of white space into [\s+], compiled with
    IGNORECASE), takes the first match found by back-tracking from the
    start of the data, rejects it when data remain, and then builds the
    date.  A matcher is modelled as the list of its successes in the
    order back-tracking tries them, so that the head of the composed list
    is the match the regular expression finds. *)

Module Strptime.

Inductive directive : Type :=
| Dir_a                      (* %a, abbreviated weekday name *)
| Dir_d                      (* %d, day of the month *)
| Dir_b                      (* %b, abbreviated month name *)
| Dir_m                      (* %m, month number *)
| Dir_Y                      (* %Y, year with century *)
| Dir_ws                     (* white space in the format *)
| Dir_lit (c : ascii).       (* a caseless literal character *)

(** The fields a match has filled in; the defaults are those of
    [_strptime]. *)
Record fields : Type := mkfields { f_year : Z; f_month : Z; f_day : Z }.

Definition fields0 : fields := mkfields 1900 1 1.

Fixpoint drop (n : nat) (s : string) : string :=
  match n, s with
  | S k, String _ s' => drop k s'
  | _, _ => s
  end.

(** Remainders after [\s+], longest run first. *)
Fixpoint re_ws (s : string) : list string :=
  match s with
  | String c s' => if PyStr.is_space c then re_ws s' ++ [s'] else []
  | EmptyString => []
  end.

Definition in_range (lo hi : nat) (c : ascii) : bool :=
  let n := nat_of_ascii c in ((lo <=? n) && (n <=? hi))%nat.

Definition when {A} (b : bool) (x : A) : list A := if b then [x] else [].

(** [3[0-1]|[1-2]\d|0[1-9]|[1-9]| [1-9]] *)
Definition re_d (s : string) : list (Z * string) :=
  match s with
  | String a (String b r) =>
      let va := PyStr.digit_value a in
      let vb := PyStr.digit_value b in
      when (Ascii.eqb a "3" && in_range 48 49 b) (10 * va + vb, r)
      ++ when (in_range 49 50 a && PyStr.is_digit b) (10 * va + vb, r)
      ++ when (Ascii.eqb a "0" && in_range 49 57 b) (vb, r)
      ++ when (in_range 49 57 a) (va, String b r)
      ++ when (Ascii.eqb a " " && in_range 49 57 b) (vb, r)
  | String a EmptyString =>
      when (in_range 49 57 a) (PyStr.digit_value a, EmptyString)
  | EmptyString => []
  end.

(** [1[0-2]|0[1-9]|[1-9]] *)
Definition re_m (s : string) : list (Z * string) :=
  match s with
  | String a (String b r) =>
      let va := PyStr.digit_value a in
      let vb := PyStr.digit_value b in
      when (Ascii.eqb a "1" && in_range 48 50 b) (10 * va + vb, r)
      ++ when (Ascii.eqb a "0" && in_range 49 57 b) (vb, r)
      ++ when (in_range 49 57 a) (va, String b r)
  | String a EmptyString =>
      when (in_range 49 57 a) (PyStr.digit_value a, EmptyString)
  | EmptyString => []
  end.

(** [\d\d\d\d] *)
Definition re_Y (s : string) : list (Z * string) :=
  match s with
  | String a (String b (String c (String d r))) =>
      when (PyStr.is_digit a && PyStr.is_digit b
            && PyStr.is_digit c && PyStr.is_digit d)
        (1000 * PyStr.digit_value a + 100 * PyStr.digit_value b
         + 10 * PyStr.digit_value c + PyStr.digit_value d, r)
  | _ => []
  end.

(** An alternation of names, matched without regard to case; the
    value of a name is its position in the list, counted from [first]. *)
Fixpoint re_names (names : list string) (first : Z) (s : string) : list (Z * string) :=
  match names with
  | [] => []
  | n :: names' =>
      when (PyStr.startswith n (PyStr.lower s)) (first, drop (String.length n) s)
      ++ re_names names' (first + 1) s
  end.

Definition a_weekday : list string :=
  ["mon"; "tue"; "wed"; "thu"; "fri"; "sat"; "sun"].

Definition a_month : list string :=
  ["jan"; "feb"; "mar"; "apr"; "may"; "jun";
   "jul"; "aug"; "sep"; "oct"; "nov"; "dec"].

(** One directive against the data: the fields and remainder of each
    success, in back-tracking order.  The weekday is matched and plays
    no part in the date. *)
Definition step (d : directive) (st : fields * string) : list (fields * string) :=
  let '(f, s) := st in
  match d with
  | Dir_a => (fun '(_, r) => (f, r)) <$> re_names a_weekday 0 s
  | Dir_d => (fun '(v, r) => (mkfields (f_year f) (f_month f) v, r)) <$> re_d s
  | Dir_b => (fun '(v, r) => (mkfields (f_year f) v (f_day f), r)) <$> re_names a_month 1 s
  | Dir_m => (fun '(v, r) => (mkfields (f_year f) v (f_day f), r)) <$> re_m s
  | Dir_Y => (fun '(v, r) => (mkfields v (f_month f) (f_day f), r)) <$> re_Y s
  | Dir_ws => (fun r => (f, r)) <$> re_ws s
  | Dir_lit c =>
      match s with
      | String c' r => when (Ascii.eqb c c') (f, r)
      | EmptyString => []
      end
  end.

Fixpoint matches (fmt : list directive) (st : fields * string) : list (fields * string) :=
  match fmt with
  | [] => [st]
  | d :: fmt' => step d st ≫= matches fmt'
  end.

(** [datetime.strptime(data, fmt)]: no match, unconverted data and an
    impossible date all raise [ValueError]. *)
Definition strptime (data : string) (fmt : list directive) : res datetime :=
  match matches fmt (fields0, data) with
  | (f, EmptyString) :: _ =>
      if Calendar.valid_ymd (f_year f) (f_month f) (f_day f)
      then Return (mkdatetime (f_year f) (f_month f) (f_day f) 0 0 0)
      else Raise ValueError
  | _ => Raise ValueError
  end.

(** ["%a %d %b %Y"], the format of the dates on a detail page. *)
Definition FMT_a_d_b_Y : list directive :=
  [Dir_a; Dir_ws; Dir_d; Dir_ws; Dir_b; Dir_ws; Dir_Y].

(** ["%Y-%m-%d"] *)
Definition FMT_Y_m_d : list directive :=
  [Dir_Y; Dir_lit "-"; Dir_m; Dir_lit "-"; Dir_d].

End Strptime.

(** ** Parsed pages

    The selector engine is outside the spider; a page is modelled by what
    each selector expression of the spider evaluates to on it. *)

(** A cell of a table row with its own text nodes (the text of nested
    elements is not selected by [text()]). *)
Inductive cell : Type :=
| Th (texts : list string)
| Td (texts : list string).

(** A row is the sequence of its [th] and [td] children, a table the
    sequence of its rows, both in document order. *)
Definition row : Type := list cell.
Definition table : Type := list row.

(** A [.searchresult] element: [result.css("a::attr(href)").get()]. *)
Record result_row : Type := mkrow { a_href : option string }.

Record Page : Type := mkPage {
  csrf_value : option string;              (* input[name='_csrf']::attr(value) *)
  form_url : string;                       (* where the page's form submits to *)
  messagebox : list string;                (* .messagebox, each extracted *)
  applicationTools : nat;                  (* number of #applicationTools *)
  searchresults : list (list result_row);  (* #searchresults, each with its .searchresult *)
  next_href : option string;               (* .next::attr(href) *)
  simpleDetailsTable : list table;         (* #simpleDetailsTable *)
  applicationDetails : list table          (* #applicationDetails *)
}.

Definition empty_page : Page :=
  mkPage None "" [] 0 [] None [] [].

(** ** Field extractor *)

(** [contains(text(), 'label')] on a [th]: the node set [text()] is
    converted to the string value of its first node, the empty string
    when the header has no text. *)
Definition th_contains (label : string) (c : cell) : bool :=
  match c with
  | Th texts => PyStr.contains label (default EmptyString (head texts))
  | Td _ => false
  end.

(** The siblings that follow the first header of the row that matches:
    every cell selected by [following-sibling] from some matching
    header of the row is among them. *)
Fixpoint following_siblings (label : string) (r : row) : list cell :=
  match r with
  | [] => []
  | c :: r' => if th_contains label c then r' else following_siblings label r'
  end.

Definition td_text (c : cell) : list string :=
  match c with
  | Td texts => texts
  | Th _ => []
  end.

(** [.//th[contains(text(), 'label')]/following-sibling::td/text()],
    the selected text nodes in document order; [label] holds no
    apostrophe, as it is spliced between apostrophes. *)
Definition xpath_th_following_td_text (t : table) (label : string) : list string :=
  r ← t; c ← following_siblings label r; td_text c.

Definition _get_horizontal_table_value (t : table) (column_name : string)
  : option string :=
  match head (xpath_th_following_td_text t column_name) with
  | Some texts => if PyStr.truthy texts then Some (PyStr.strip texts) else None
  | None => None
  end.

(** ** Items

    Modelled from the spec: [planning_applications.items] is not among the
    sources; section 3 of the specification gives the three structures
    and says that every field of the two detail structures is optional,
    so a freshly constructed structure has every field absent. *)

Record PlanningApplicationDetailsSummary : Type := mkSummary {
  ds_reference : option string;
  ds_application_received : option datetime;
  ds_application_validated : option datetime;
  ds_address : option string;
  ds_proposal : option string;
  ds_appeal_status : option string;
  ds_appeal_decision : option string
}.

Record PlanningApplicationDetailsFurtherInformation : Type := mkFurther {
  dfi_application_type : option string;
  dfi_expected_decision_level : option string;
  dfi_case_officer : option string;
  dfi_parish : option string;
  dfi_ward : option string;
  dfi_applicant_name : option string;
  dfi_district_reference : option string;
  dfi_applicant_address : option string;
  dfi_environmental_assessment_requested : option string
}.

Record PlanningApplicationItem : Type := mkItem {
  lpa : string;
  reference : option string;
  application_received : option datetime;
  application_validated : option datetime;
  address : option string;
  proposal : option string;
  appeal_status : option string;
  appeal_decision : option string;
  application_type : option string;
  expected_decision_level : option string;
  case_officer : option string;
  parish : option string;
  ward : option string;
  district_reference : option string;
  applicant_name : option string;
  applicant_address : option string;
  environmental_assessment_requested : option string
}.

Definition new_PlanningApplicationDetailsSummary : PlanningApplicationDetailsSummary :=
  mkSummary None None None None None None None.

Definition new_PlanningApplicationDetailsFurtherInformation
  : PlanningApplicationDetailsFurtherInformation :=
  mkFurther None None None None None None None None None.

(** ** Status filter *)

Inductive applicationStatus : Type :=
| ALL
| APPEAL_DECIDED
| APPEAL_LODGED
| AWAITING_DECISION
| DECIDED
| REGISTERED
| UNKNOWN
| WITHDRAWN.

#[global] Instance applicationStatus_eq_dec : EqDecision applicationStatus.
Proof. solve_decision. Defined.

(** [status.value] *)
Definition value (s : applicationStatus) : string :=
  match s with
  | ALL => ""
  | APPEAL_DECIDED => "Appeal decided"
  | APPEAL_LODGED => "Appeal lodged"
  | AWAITING_DECISION => "Awaiting decision"
  | DECIDED => "Decided"
  | REGISTERED => "Registered"
  | UNKNOWN => "Unknown"
  | WITHDRAWN => "Withdrawn"
  end.

Definition all_statuses : list applicationStatus :=
  [ALL; APPEAL_DECIDED; APPEAL_LODGED; AWAITING_DECISION;
   DECIDED; REGISTERED; UNKNOWN; WITHDRAWN].

(** [applicationStatus(raw)]: the member with that value, [ValueError]
    when there is none. *)
Definition applicationStatus_of_value (raw : string) : res applicationStatus :=
  match List.find (fun s => String.eqb (value s) raw) all_statuses with
  | Some s => Return s
  | None => Raise ValueError
  end.

(** ** Requests, responses and the per-request context *)

Inductive callback : Type :=
| CB_submit_form
| CB_parse_results
| CB_parse_details_summary_tab
| CB_parse_details_further_information_tab.

#[global] Instance callback_eq_dec : EqDecision callback.
Proof. solve_decision. Defined.

(** The [meta] dictionary of a request: one optional slot per key the
    spider ever stores, absent when the key is not in the dictionary. *)
Record Meta : Type := mkMeta {
  meta_keyval : option string;
  meta_original_response : option string;
  meta_limit : option Z;
  meta_applications_scraped : option Z;
  meta_details_summary : option PlanningApplicationDetailsSummary;
  meta_details_further_information : option PlanningApplicationDetailsFurtherInformation
}.

Definition empty_meta : Meta := mkMeta None None None None None None.

(** Dictionaries are mutable and may be shared between requests: a
    request holds the address of its dictionary in the store. *)
Record Request : Type := mkRequest {
  req_url : string;
  req_callback : callback;
  req_meta : nat;
  req_formdata : option (gmap string (option string))
}.

Record Response : Type := mkResponse {
  url : string;
  page : Page;
  meta : nat
}.

(** What a callback may hand to the engine.  [Out_Generator m] is the
    generator object made by a call of [create_planning_application_item]
    on the dictionary at address [m]; nothing of its body has run. *)
Inductive output : Type :=
| Out_Request (r : Request)
| Out_Item (i : PlanningApplicationItem)
| Out_Generator (m : nat).

Inductive level : Type := INFO | ERROR.

Record log_record : Type := mklog { levelname : level; message : string }.

#[global] Instance level_eq_dec : EqDecision level.
Proof. solve_decision. Defined.

(** ** The spider's mutable state and the generator monad *)

Record State : Type := mkState {
  applications_scraped : Z;       (* self.applications_scraped *)
  dicts : gmap nat Meta;          (* the store of meta dictionaries *)
  next_addr : nat                 (* the address of the next new dictionary *)
}.

(** A run of a generator (or of a plain method) from a state: how it
    ended, the state it left, what it yielded and what it logged before
    it ended. *)
Record Run (A : Type) : Type := mkRun {
  ended : res A;
  final : State;
  yielded : list output;
  logged : list log_record
}.
Arguments mkRun {A} ended final yielded logged.
Arguments ended {A} r.
Arguments final {A} r.
Arguments yielded {A} r.
Arguments logged {A} r.

Definition Gen (A : Type) : Type := State -> Run A.

#[global] Instance Gen_ret : MRet Gen :=
  fun A a s => mkRun (Return a) s [] [].

#[global] Instance Gen_bind : MBind Gen :=
  fun A B k m s =>
    match m s with
    | mkRun (Return a) s1 y1 l1 =>
        match k a s1 with
        | mkRun e s2 y2 l2 => mkRun e s2 (y1 ++ y2) (l1 ++ l2)
        end
    | mkRun (Raise e) s1 y1 l1 => mkRun (Raise e) s1 y1 l1
    end.

Definition raise {A} (e : exn) : Gen A := fun s => mkRun (Raise e) s [] [].

Definition lift {A} (r : res A) : Gen A := fun s => mkRun r s [] [].

Definition yield (o : output) : Gen unit := fun s => mkRun (Return tt) s [o] [].

Definition log (l : level) (msg : string) : Gen unit :=
  fun s => mkRun (Return tt) s [] [mklog l msg].

Definition get_applications_scraped : Gen Z :=
  fun s => mkRun (Return (applications_scraped s)) s [] [].

Definition set_applications_scraped (n : Z) : Gen unit :=
  fun s => mkRun (Return tt) (mkState n (dicts s) (next_addr s)) [] [].

(** The dictionary at an address; an address never written to holds the
    empty dictionary. *)
Definition dict_at (s : State) (m : nat) : Meta :=
  default empty_meta (dicts s !! m).

Definition read_meta (m : nat) : Gen Meta :=
  fun s => mkRun (Return (dict_at s m)) s [] [].

Definition update_meta (m : nat) (f : Meta -> Meta) : Gen unit :=
  fun s =>
    mkRun (Return tt)
      (mkState (applications_scraped s) (<[m := f (dict_at s m)]> (dicts s))
         (next_addr s)) [] [].

(** A new dictionary; its address is returned. *)
Definition new_meta (d : Meta) : Gen nat :=
  fun s =>
    mkRun (Return (next_addr s))
      (mkState (applications_scraped s) (<[next_addr s := d]> (dicts s))
         (S (next_addr s))) [] [].

(** [l[i]] *)
Definition list_index {A} (l : list A) (i : nat) : res A :=
  match l !! i with
  | Some x => Return x
  | None => Raise IndexError
  end.

(** [str(x)] for an optional string. *)
Definition str_of (o : option string) : string := default "None" o.

(** ** The spider *)

(** The attributes of a constructed spider.  [name], [limit],
    [should_scrape_application] and the counter [applications_scraped]
    (kept in [State]) are inherited from [BaseSpider], which is not among
    the sources; they are taken as given. *)
Record IdoxSpider : Type := mkSpider {
  name : string;
  start_url : string;
  limit : Z;
  should_scrape_application : bool;
  start_date : date;
  end_date : date;
  filter_status : applicationStatus
}.

Definition two_digits (n : Z) : string :=
  if n <? 10 then "0" +:+ pretty n else pretty n.

(** [d.strftime("%d/%m/%Y")] *)
Definition strftime_d_m_Y (d : date) : string :=
  two_digits (day d) +:+ "/" +:+ two_digits (month d) +:+ "/" +:+ pretty (year d).

Definition four_digits (n : Z) : string :=
  (if n <? 10 then "000" else if n <? 100 then "00" else if n <? 1000 then "0" else "")
  +:+ pretty n.

(** [str(d)], the ISO form of a date. *)
Definition isoformat (d : date) : string :=
  four_digits (year d) +:+ "-" +:+ two_digits (month d) +:+ "-" +:+ two_digits (day d).

Definition formatted_start_date (self : IdoxSpider) : string :=
  strftime_d_m_Y (start_date self).

Definition formatted_end_date (self : IdoxSpider) : string :=
  strftime_d_m_Y (end_date self).

(** The two shapes in which the source calls
    [create_planning_application_item]: with [meta] alone (line 219) and
    with [meta] and [response] (line 269). *)
Inductive call_args : Type :=
| Args_meta (m : nat)
| Args_meta_response (m : nat) (response : Response).

Section Spider.

(** [response.urljoin(href)], given the URL of the response; part of the
    fetch engine. *)
Variable urljoin : string -> option string -> string.

(** Whether the engine's request constructor keeps its own copy of the
    [meta] dictionary it is given ([true]) or keeps the dictionary
    itself ([false]).  The sources do not settle it. *)
Variable copies_meta : bool.

(** [scrapy.Request(url, callback=cb, meta=m, ...)]; a request made
    without [meta] gets an empty dictionary of its own. *)
Definition scrapy_Request (u : string) (cb : callback) (m : option nat)
  : Gen Request :=
  match m with
  | None => a ← new_meta empty_meta; mret (mkRequest u cb a None)
  | Some a =>
      if copies_meta
      then d ← read_meta a; a' ← new_meta d; mret (mkRequest u cb a' None)
      else mret (mkRequest u cb a None)
  end.

(** The body of the generator [create_planning_application_item], run
    when the generator object is iterated: the dictionary [d] is read
    then. *)
Definition create_planning_application_item_body (self : IdoxSpider) (d : Meta)
  : res (list PlanningApplicationItem) :=
  match meta_details_summary d, meta_details_further_information d with
  | Some details_summary, Some details_further_information =>
      Return
        [mkItem (name self)
           (ds_reference details_summary)
           (ds_application_received details_summary)
           (ds_application_validated details_summary)
           (ds_address details_summary)
           (ds_proposal details_summary)
           (ds_appeal_status details_summary)
           (ds_appeal_decision details_summary)
           (dfi_application_type details_further_information)
           (dfi_expected_decision_level details_further_information)
           (dfi_case_officer details_further_information)
           (dfi_parish details_further_information)
           (dfi_ward details_further_information)
           (dfi_district_reference details_further_information)
           (dfi_applicant_name details_further_information)
           (dfi_applicant_address details_further_information)
           (dfi_environmental_assessment_requested details_further_information)]
  | _, _ => Raise KeyError
  end.

(** A call [self.create_planning_application_item(...)].  The method is
    declared with the parameters [meta] and [response]: a call that
    leaves [response] out raises [TypeError] when the arguments are
    bound; a complete call returns the generator object without running
    any of the body. *)
Definition create_planning_application_item (self : IdoxSpider) (args : call_args)
  : Gen output :=
  match args with
  | Args_meta _ => raise TypeError
  | Args_meta_response m _ => mret (Out_Generator m)
  end.

(** Lines 202-204 and 206-208: a date cell with text is parsed, an
    absent or empty one leaves the attribute as it was. *)
Definition date_cell_value (cell_text : option string) (current : option datetime)
  : res (option datetime) :=
  match cell_text with
  | Some text =>
      if PyStr.truthy text
      then res_bind (Strptime.strptime text Strptime.FMT_a_d_b_Y)
             (fun dt => Return (Some dt))
      else Return current
  | None => Return current
  end.

(** Lines 200-213: the structure filled from the summary table, given
    its two date attributes. *)
Definition summary_of (summary_table : table) (received validated : option datetime)
  : PlanningApplicationDetailsSummary :=
  mkSummary (_get_horizontal_table_value summary_table "Reference")
    received validated
    (_get_horizontal_table_value summary_table "Address")
    (_get_horizontal_table_value summary_table "Proposal")
    (_get_horizontal_table_value summary_table "Appeal Status")
    (_get_horizontal_table_value summary_table "Appeal Decision").

Definition parse_details_summary_tab (self : IdoxSpider) (response : Response)
  : Gen unit :=
  log INFO ("Parsing results on " +:+ url response +:+ " (parse_details_summary_tab)");;
  let details_summary := new_PlanningApplicationDetailsSummary in
  summary_table ← lift (list_index (simpleDetailsTable (page response)) 0);
  received ← lift (date_cell_value
    (_get_horizontal_table_value summary_table "Application Received")
    (ds_application_received details_summary));
  validated ← lift (date_cell_value
    (_get_horizontal_table_value summary_table "Application Validated")
    (ds_application_validated details_summary));
  let details_summary := summary_of summary_table received validated in
  let m := meta response in
  update_meta m (fun d =>
    mkMeta (meta_keyval d) (meta_original_response d) (meta_limit d)
      (meta_applications_scraped d) (Some details_summary)
      (meta_details_further_information d));;
  d ← read_meta m;
  if bool_decide (is_Some (meta_details_further_information d))
  then
    g ← create_planning_application_item self (Args_meta m);
    yield g
  else
    r ← scrapy_Request (url response) CB_parse_details_further_information_tab (Some m);
    yield (Out_Request r).

(** Lines 242-263: the structure filled from the details table, one
    lookup per attribute. *)
Definition further_information_of (details_table : table)
  : PlanningApplicationDetailsFurtherInformation :=
  mkFurther
    (_get_horizontal_table_value details_table "Application Type")
    (_get_horizontal_table_value details_table "Expected Decision Level")
    (_get_horizontal_table_value details_table "Case Officer")
    (_get_horizontal_table_value details_table "Parish")
    (_get_horizontal_table_value details_table "Ward")
    (_get_horizontal_table_value details_table "Applicant Name")
    (_get_horizontal_table_value details_table "District Reference")
    (_get_horizontal_table_value details_table "Applicant Address")
    (_get_horizontal_table_value details_table "Environmental Assessment Requested").

Definition parse_details_further_information_tab (self : IdoxSpider)
    (response : Response) : Gen unit :=
  log INFO ("Parsing results on " +:+ url response
            +:+ " (parse_details_further_information_tab)");;
  details_table ← lift (list_index (applicationDetails (page response)) 0);
  let details_further_information := further_information_of details_table in
  let m := meta response in
  update_meta m (fun d =>
    mkMeta (meta_keyval d) (meta_original_response d) (meta_limit d)
      (meta_applications_scraped d) (meta_details_summary d)
      (Some details_further_information));;
  d ← read_meta m;
  if bool_decide (is_Some (meta_details_summary d))
  then
    g ← create_planning_application_item self (Args_meta_response m response);
    yield g
  else
    r ← scrapy_Request (url response) CB_parse_details_summary_tab (Some m);
    yield (Out_Request r).

Definition _get_single_result_details_summary_url (result : result_row)
    (response : Response) : string :=
  urljoin (url response) (a_href result).

Definition _get_single_result_details_further_information_url
    (result : result_row) (response : Response) : string :=
  PyStr.replace "activeTab=summary" "activeTab=details"
    (_get_single_result_details_summary_url result response).

(** Line 129: [details_summary_url.split("keyVal=")[1].split("&")[0] or ""] *)
Definition keyval_of (details_summary_url : string) : res string :=
  res_bind (list_index (PyStr.split "keyVal=" details_summary_url) 1) (fun after =>
  res_bind (list_index (PyStr.split "&" after) 0) (fun k =>
  Return (if PyStr.truthy k then k else ""))).

Definition _parse_single_result (self : IdoxSpider) (result : result_row)
    (response : Response) : Gen unit :=
  let details_summary_url := _get_single_result_details_summary_url result response in
  let details_further_information_url :=
    _get_single_result_details_further_information_url result response in
  keyval ← lift (keyval_of details_summary_url);
  if String.eqb keyval ""
  then log ERROR ("Failed to parse keyval from " +:+ details_summary_url
                  +:+ ", can't continue")
  else if should_scrape_application self
  then
    n ← get_applications_scraped;
    set_applications_scraped (n + 1);;
    m ← new_meta (mkMeta (Some keyval) (Some (url response)) (Some (limit self))
                    (Some (n + 1)) None None);
    r1 ← scrapy_Request details_summary_url CB_parse_details_summary_tab (Some m);
    yield (Out_Request r1);;
    r2 ← scrapy_Request details_further_information_url
           CB_parse_details_further_information_tab (Some m);
    yield (Out_Request r2)
  else mret tt.

(** The loop of lines 111-117 over the rows still to be visited; the
    result says whether the loop left the whole method by [return]. *)
Fixpoint parse_results_rows (self : IdoxSpider) (response : Response)
    (rows : list result_row) : Gen bool :=
  match rows with
  | [] => mret false
  | result :: rows' =>
      log INFO ("heading into " +:+ str_of (a_href result));;
      n ← get_applications_scraped;
      if limit self <=? n
      then log INFO ("Reached the limit of " +:+ pretty (limit self) +:+ " applications");;
           mret true
      else _parse_single_result self result response;;
           parse_results_rows self response rows'
  end.

(** Lines 97-123, after the message banner has been dealt with. *)
Definition parse_results_listing (self : IdoxSpider) (response : Response)
  : Gen unit :=
  if (0 <? applicationTools (page response))%nat
  then log INFO ("Only one application found on " +:+ url response);;
       parse_details_summary_tab self response
  else
    match searchresults (page response) with
    | [] => log INFO ("No applications found on " +:+ url response)
    | search_results :: _ =>
        log INFO ("Found " +:+ pretty (length search_results)
                  +:+ " applications on " +:+ url response);;
        returned ← parse_results_rows self response search_results;
        if (returned : bool) then mret tt
        else
          match next_href (page response) with
          | Some next_page =>
              if PyStr.truthy next_page
              then log INFO ("Found next page at " +:+ next_page);;
                   r ← scrapy_Request (urljoin (url response) (Some next_page))
                         CB_parse_results None;
                   yield (Out_Request r)
              else mret tt
          | None => mret tt
          end
    end.

Definition parse_results (self : IdoxSpider) (response : Response) : Gen unit :=
  match messagebox (page response) with
  | message_box_0 :: _ =>
      if PyStr.contains "No results found" message_box_0
      then log INFO ("No applications found on " +:+ url response)
      else if PyStr.contains "Too many results found" message_box_0
      then log ERROR ("Too many results found on " +:+ url response
                      +:+ ". Make the search more specific.")
      else parse_results_listing self response
  | [] => parse_results_listing self response
  end.

(** The form data of lines 72-81. *)
Definition submit_form_formdata (self : IdoxSpider) (response : Response)
  : gmap string (option string) :=
  let formdata : gmap string (option string) :=
    <["searchType" := Some "Application"]>
    (<["date(applicationValidatedEnd)" := Some (formatted_end_date self)]>
    (<["date(applicationValidatedStart)" := Some (formatted_start_date self)]>
    (<["caseAddressType" := Some "Application"]>
    (<["_csrf" := csrf_value (page response)]> ∅)))) in
  if bool_decide (filter_status self ≠ ALL)
  then <["caseStatus" := Some (value (filter_status self))]> formdata
  else formdata.

Definition submit_form (self : IdoxSpider) (response : Response) : Gen unit :=
  log INFO ("Submitting search form on " +:+ url response);;
  a ← new_meta empty_meta;
  yield (Out_Request
           (mkRequest (form_url (page response)) CB_parse_results a
              (Some (submit_form_formdata self response)))).

Definition start_requests (self : IdoxSpider) : Gen unit :=
  log INFO ("Searching for " +:+ name self +:+ " applications between "
            +:+ isoformat (start_date self) +:+ " and "
            +:+ isoformat (end_date self) +:+ " with status "
            +:+ (if bool_decide (filter_status self = ALL) then "all"
                 else value (filter_status self)));;
  r ← scrapy_Request (start_url self) CB_submit_form None;
  yield (Out_Request r).

End Spider.

(** ** Construction of the spider *)

(** A date attribute is a [date] or a string still to be parsed; the
    status attribute is a member of the enumeration or its raw value. *)
Inductive date_arg : Type :=
| Date_str (s : string)
| Date_obj (d : date).

Inductive status_arg : Type :=
| Status_str (s : string)
| Status_obj (s : applicationStatus).

(** What the configuration passes to the constructor; [None] for an
    attribute it does not supply. *)
Record Settings : Type := mkSettings {
  arg_name : string;
  arg_start_url : string;
  arg_limit : Z;
  arg_should_scrape_application : bool;
  arg_start_date : option date_arg;
  arg_end_date : option date_arg;
  arg_filter_status : option status_arg
}.

Section Construction.

(** [datetime.strptime(s, DEFAULT_DATE_FORMAT)]: the format is a
    constant of [planning_applications.settings], which is not among the
    sources. *)
Variable strptime_DEFAULT_DATE_FORMAT : string -> res datetime.

(** [datetime.now()] when the module is loaded. *)
Variable now : datetime.

(** Line 21 *)
Definition DEFAULT_START_DATE : date :=
  Calendar.fromisocalendar (dt_year now) 1 1.

(** Line 22 *)
Definition DEFAULT_END_DATE : date := datetime_date now.

(** The class attributes of lines 43, 45 and 46. *)
Definition class_start_date : date_arg := Date_str "2024-11-01".
Definition class_end_date : date_arg := Date_obj DEFAULT_END_DATE.
Definition class_filter_status : status_arg := Status_obj ALL.

(** Lines 51-55: a string is parsed and reduced to its date. *)
Definition to_date (a : date_arg) : res date :=
  match a with
  | Date_str s =>
      res_bind (strptime_DEFAULT_DATE_FORMAT s) (fun dt => Return (datetime_date dt))
  | Date_obj d => Return d
  end.

(** Lines 57-58 *)
Definition to_status (a : status_arg) : res applicationStatus :=
  match a with
  | Status_str s => applicationStatus_of_value s
  | Status_obj s => Return s
  end.

(** The constructor, lines 48-61: an attribute the settings supply
    replaces the class attribute. *)
Definition __init__ (settings : Settings) : res IdoxSpider :=
  res_bind (to_date (default class_start_date (arg_start_date settings))) (fun start_date =>
  res_bind (to_date (default class_end_date (arg_end_date settings))) (fun end_date =>
  res_bind (to_status (default class_filter_status (arg_filter_status settings)))
    (fun filter_status =>
  if date_gtb start_date end_date
  then Raise ValueError
  else Return (mkSpider (arg_name settings) (arg_start_url settings)
                 (arg_limit settings) (arg_should_scrape_application settings)
                 start_date end_date filter_status)))).

End Construction.

(** ** The crawl engine

    The engine is outside the spider.  What the properties below need of
    it is modelled: it fetches the page of a pending request, runs the
    request's callback on the response, schedules the requests the
    callback yields and passes every other yielded value to the sink; an
    exception that escapes a callback is logged and the crawl goes on. *)

Section Engine.

Variable urljoin : string -> option string -> string.
Variable copies_meta : bool.

(** Whether the scheduler drops a request whose URL and form data it
    has already been given. *)
Variable dupefilter : bool.

(** The remote site: the page served at a URL. *)
Variable site : string -> Page.

Variable self : IdoxSpider.

Record Crawl : Type := mkCrawl {
  spider_state : State;
  pending : list Request;
  seen : list (string * option (gmap string (option string)));
  sink : list output;
  crawl_log : list log_record
}.

Definition fingerprint (r : Request) : string * option (gmap string (option string)) :=
  (req_url r, req_formdata r).

Definition call (cb : callback) (response : Response) : Gen unit :=
  match cb with
  | CB_submit_form => submit_form self response
  | CB_parse_results => parse_results urljoin copies_meta self response
  | CB_parse_details_summary_tab =>
      parse_details_summary_tab copies_meta self response
  | CB_parse_details_further_information_tab =>
      parse_details_further_information_tab copies_meta self response
  end.

(** One yielded value reaches the engine. *)
Definition accept (c : Crawl) (o : output) : Crawl :=
  match o with
  | Out_Request r =>
      if dupefilter && bool_decide (fingerprint r ∈ seen c)
      then c
      else mkCrawl (spider_state c) (pending c ++ [r]) (seen c ++ [fingerprint r])
             (sink c) (crawl_log c)
  | _ => mkCrawl (spider_state c) (pending c) (seen c) (sink c ++ [o]) (crawl_log c)
  end.

(** The response to the [i]-th pending request arrives. *)
Definition deliver (i : nat) (c : Crawl) : Crawl :=
  match pending c !! i with
  | None => c
  | Some r =>
      let response := mkResponse (req_url r) (site (req_url r)) (req_meta r) in
      let run := call (req_callback r) response (spider_state c) in
      let c' :=
        mkCrawl (final run) (delete i (pending c)) (seen c) (sink c)
          (crawl_log c ++ logged run
           ++ match ended run with
              | Raise _ => [mklog ERROR ("Spider error processing " +:+ req_url r)]
              | Return _ => []
              end) in
      foldl accept c' (yielded run)
  end.

(** The crawl states reached from [c] by the orders of arrival, one
    list entry per order: each order is followed until nothing is pending
    or [fuel] responses have arrived. *)
Fixpoint outcomes (fuel : nat) (c : Crawl) : list Crawl :=
  match fuel with
  | O => [c]
  | S fuel' =>
      match pending c with
      | [] => [c]
      | _ => i ← seq 0 (length (pending c)); outcomes fuel' (deliver i c)
      end
  end.

(** The crawl right after [parse_results] has run on a listing
    response: the requests it yielded are pending. *)
Definition after_listing (listing_url : string) : Crawl :=
  let s0 := mkState 0 {[0%nat := empty_meta]} 1 in
  let run := parse_results urljoin copies_meta self
               (mkResponse listing_url (site listing_url) 0%nat) s0 in
  foldl accept (mkCrawl (final run) [] [] [] (logged run)) (yielded run).

End Engine.

(** The engine constructs the spider and then asks it for its first
    requests; when the constructor raises there is no spider to ask. *)
Definition open_spider (strp : string -> res datetime) (now : datetime)
    (copies_meta : bool) (settings : Settings) (s : State) : res (Run unit) :=
  res_bind (__init__ strp now settings) (fun self =>
  Return (start_requests copies_meta self s)).

(** ** A sample site

    Concrete pages on which the spider is run: a listing with one
    application, whose summary tab carries the summary table and whose
    further-information tab carries the details table. *)

Module Sample.

(** Joins a link that is an absolute path to the one host of the
    sample; without a link the URL of the response is kept. *)
Definition urljoin (base : string) (href : option string) : string :=
  match href with
  | Some h => "https://idox.example" +:+ h
  | None => base
  end.

Definition listing_url : string := "https://idox.example/search".

Definition summary_url : string :=
  "https://idox.example/app?keyVal=K1&activeTab=summary".

Definition details_url : string :=
  "https://idox.example/app?keyVal=K1&activeTab=details".

Definition summary_page : Page :=
  mkPage None "" [] 1 [] None
    [[[Th ["Reference"]; Td ["24/1234/FUL"]];
      [Th ["Application Received"]; Td ["Mon 01 Jan 2024"]];
      [Th ["Address"]; Td ["1 High Street"]]]]
    [].

Definition details_page : Page :=
  mkPage None "" [] 1 [] None []
    [[[Th ["Application Type"]; Td ["Full Application"]];
      [Th ["Case Officer"]; Td ["A. Clerk"]]]].

Definition listing_page : Page :=
  mkPage None "" [] 0
    [[mkrow (Some "/app?keyVal=K1&activeTab=summary")]] None [] [].

Definition site (u : string) : Page :=
  if String.eqb u summary_url then summary_page
  else if String.eqb u details_url then details_page
  else if String.eqb u listing_url then listing_page
  else empty_page.

Definition spider : IdoxSpider :=
  mkSpider "sample" "https://idox.example/start" 10 true
    (mkdate 2024 1 1) (mkdate 2024 2 1) ALL.

(** The crawl when the listing has been handled: the two detail
    requests of the application are pending, the summary request
    first. *)
Definition dispatched (copies_meta dupefilter : bool) : Crawl :=
  after_listing urljoin copies_meta dupefilter site spider listing_url.

(** The record that merges the two sample pages. *)
Definition merged : PlanningApplicationItem :=
  mkItem "sample" (Some "24/1234/FUL") (Some (mkdatetime 2024 1 1 0 0 0)) None
    (Some "1 High Street") None None None
    (Some "Full Application") None (Some "A. Clerk") None None None None None None.

(** A listing of two rows, the first with a link that holds no key, and
    a link to a next page. *)
Definition listing_with_bad_row : Page :=
  mkPage None "" [] 0
    [[mkrow (Some "/app?activeTab=summary");
      mkrow (Some "/app?keyVal=K2&activeTab=summary")]]
    (Some "/search?page=2") [] [].

(** A listing of three rows and a link to a next page. *)
Definition listing_of_three : Page :=
  mkPage None "" [] 0
    [[mkrow (Some "/app?keyVal=K1&activeTab=summary");
      mkrow (Some "/app?keyVal=K2&activeTab=summary");
      mkrow (Some "/app?keyVal=K3&activeTab=summary")]]
    (Some "/search?page=2") [] [].

Definition state0 : State := mkState 0 {[0%nat := empty_meta]} 1.

Definition spider_limit_2 : IdoxSpider :=
  mkSpider "sample" "https://idox.example/start" 2 true
    (mkdate 2024 1 1) (mkdate 2024 2 1) ALL.

(** A listing under a banner that reports too many results. *)
Definition listing_too_many : Page :=
  mkPage None "" ["<div class='messagebox'>Too many results found.</div>"] 0
    [[mkrow (Some "/app?keyVal=K1&activeTab=summary")]]
    (Some "/search?page=2") [] [].



(** The moment the module is loaded, and settings with and without
    dates. *)
Definition now : datetime := mkdatetime 2026 11 3 12 0 0.

Definition strptime_Y_m_d (s : string) : res datetime :=
  Strptime.strptime s Strptime.FMT_Y_m_d.

Definition settings_without_dates : Settings :=
  mkSettings "sample" "https://idox.example/start" 10 true None None None.

Definition settings_ordered : Settings :=
  mkSettings "sample" "https://idox.example/start" 10 true
    (Some (Date_str "2024-01-01")) (Some (Date_str "2024-03-01"))
    (Some (Status_str "Decided")).

Definition settings_reversed : Settings :=
  mkSettings "sample" "https://idox.example/start" 10 true
    (Some (Date_str "2024-03-01")) (Some (Date_obj (mkdate 2024 1 1))) None.

End Sample.

(** Where a yielded request goes: its URL and its callback. *)
Definition target (o : output) : option (string * callback) :=
  match o with
  | Out_Request r => Some (req_url r, req_callback r)
  | _ => None
  end.

(** ** Vocabulary of the properties of the walker *)

(** The banner test of lines 88-95 lets a page through to the listing
    when the page has no message box or its first message box holds
    neither phrase. *)
Definition passes_banner (p : Page) : bool :=
  match messagebox p with
  | [] => true
  | message_box_0 :: _ =>
      negb (PyStr.contains "No results found" message_box_0)
      && negb (PyStr.contains "Too many results found" message_box_0)
  end.

(** The key line 129 reads off the link of a row. *)
Definition row_key (urljoin : string -> option string -> string)
    (response : Response) (result : result_row) : res string :=
  keyval_of (urljoin (url response) (a_href result)).

(** Whether a row is dispatched: its key is not empty and the spider
    scrapes applications. *)
Definition dispatches (urljoin : string -> option string -> string)
    (self : IdoxSpider) (response : Response) (result : result_row) : bool :=
  match row_key urljoin response result with
  | Return k => PyStr.truthy k && should_scrape_application self
  | Raise _ => false
  end.

(** Whether the key of a row is present and empty. *)
Definition empty_key (urljoin : string -> option string -> string)
    (response : Response) (result : result_row) : bool :=
  match row_key urljoin response result with
  | Return k => negb (PyStr.truthy k)
  | Raise _ => false
  end.

(** Where the two detail requests of a row go. *)
Definition detail_targets (urljoin : string -> option string -> string)
    (response : Response) (result : result_row)
  : list (option (string * callback)) :=
  [Some (_get_single_result_details_summary_url urljoin result response,
         CB_parse_details_summary_tab);
   Some (_get_single_result_details_further_information_url urljoin result response,
         CB_parse_details_further_information_tab)].

(** Where the request for the next page goes, when the page links to
    one. *)
Definition next_page_target (urljoin : string -> option string -> string)
    (response : Response) : list (option (string * callback)) :=
  match next_href (page response) with
  | Some next_page =>
      if PyStr.truthy next_page
      then [Some (urljoin (url response) (Some next_page), CB_parse_results)]
      else []
  | None => []
  end.

(** The error records of a log. *)
Definition errors (l : list log_record) : list log_record :=
  filter (fun r => levelname r = ERROR) l.

(** The record line 464 builds from the two structures. *)
Definition item_of (lpa_name : string) (ds : PlanningApplicationDetailsSummary)
    (dfi : PlanningApplicationDetailsFurtherInformation) : PlanningApplicationItem :=
  mkItem lpa_name (ds_reference ds) (ds_application_received ds)
    (ds_application_validated ds) (ds_address ds) (ds_proposal ds)
    (ds_appeal_status ds) (ds_appeal_decision ds)
    (dfi_application_type dfi) (dfi_expected_decision_level dfi)
    (dfi_case_officer dfi) (dfi_parish dfi) (dfi_ward dfi)
    (dfi_district_reference dfi) (dfi_applicant_name dfi)
    (dfi_applicant_address dfi) (dfi_environmental_assessment_requested dfi).

(** ** The other tab links of a result row (lines 281-313) *)

Section TabLinks.

Variable urljoin : string -> option string -> string.

Definition _get_single_result_comments_public_url (result : result_row)
    (response : Response) : string :=
  PyStr.replace "activeTab=summary" "activeTab=neighbourComments"
    (_get_single_result_details_summary_url urljoin result response).

Definition _get_single_result_comments_consultee_url (result : result_row)
    (response : Response) : string :=
  PyStr.replace "activeTab=summary" "activeTab=consulteeComments"
    (_get_single_result_details_summary_url urljoin result response).

Definition _get_single_result_documents_url (result : result_row)
    (response : Response) : string :=
  PyStr.replace "activeTab=summary" "activeTab=documents"
    (_get_single_result_details_summary_url urljoin result response).

Definition _get_single_result_related_cases_url (result : result_row)
    (response : Response) : string :=
  PyStr.replace "activeTab=summary" "activeTab=relatedcases"
    (_get_single_result_details_summary_url urljoin result response).

Definition _get_single_result_map_url (result : result_row)
    (response : Response) : string :=
  PyStr.replace "activeTab=summary" "activeTab=map"
    (_get_single_result_details_summary_url urljoin result response).

End TabLinks.

(** ** Vocabulary of the properties of the field extractor *)

(** A text that is empty or starts with a character that is no white
    space is left alone by [lstrip], and [rstrip] keeps it so. *)
Definition starts_clean (s : string) : Prop :=
  match s with
  | EmptyString => True
  | String c _ => PyStr.is_space c = false
  end.

(** Whether some header cell of the row that contains [label] is
    followed, later in the row, by a value cell that holds a text
    node. *)
Fixpoint has_value_text (label : string) (r : row) : bool :=
  match r with
  | [] => false
  | c :: r' =>
      th_contains label c && existsb (fun c' => negb (bool_decide (td_text c' = []))) r'
      || has_value_text label r'
  end.

(** ** The map service: [parse_idox_arcgis] (lines 413-445) *)

(** A JSON value as [json.loads] returns it.  An object is given by its
    members in the order of the text, a later member replacing an earlier
    one of the same name; a number is kept as its literal. *)
#[local] Unset Elimination Schemes.
Inductive json : Type :=
| JNull
| JBool (b : bool)
| JNumber (literal : string)
| JString (s : string)
| JArray (items : list json)
| JObject (members : list (string * json)).
#[local] Set Elimination Schemes.

(** The member of an object with a given name: the last one written. *)
Fixpoint member (key : string) (members : list (string * json)) : option json :=
  match members with
  | [] => None
  | (k, v) :: members' =>
      match member key members' with
      | Some v' => Some v'
      | None => if String.eqb k key then Some v else None
      end
  end.

(** [v[key]] for a string [key]. *)
Definition subscript (v : json) (key : string) : res json :=
  match v with
  | JObject members =>
      match member key members with
      | Some x => Return x
      | None => Raise KeyError
      end
  | _ => Raise TypeError
  end.

(** [v[0]] *)
Definition subscript_0 (v : json) : res json :=
  match v with
  | JArray (x :: _) => Return x
  | JArray [] => Raise IndexError
  | JString (String c _) => Return (JString (String c ""))
  | JString EmptyString => Raise IndexError
  | JObject _ => Raise KeyError
  | _ => Raise TypeError
  end.

(** The names of the members of an object, each once. *)
Fixpoint member_names (members : list (string * json)) : list string :=
  match members with
  | [] => []
  | (k, _) :: members' =>
      if bool_decide (k ∈ member_names members') then member_names members'
      else k :: member_names members'
  end.

(** [len(v)] *)
Definition len (v : json) : res nat :=
  match v with
  | JArray items => Return (length items)
  | JString s => Return (String.length s)
  | JObject members => Return (length (member_names members))
  | _ => Raise TypeError
  end.

(** [v is None] *)
Definition is_None (v : json) : bool :=
  match v with
  | JNull => true
  | _ => false
  end.

(** [v != k] for a string [k]. *)
Definition differs_from (v : json) (k : string) : bool :=
  match v with
  | JString s => negb (String.eqb s k)
  | _ => true
  end.

(** The response of the map service: its URL, what [json.loads] makes of
    its text ([ValueError] when the text is no JSON), and the two keys
    its handler reads in [meta], each absent or present;
    the application reference, when present, may be [None]. *)
Record ArcgisResponse : Type := mkArcgisResponse {
  arcgis_url : string;
  arcgis_loads : res json;
  arcgis_meta_keyval : option string;
  arcgis_meta_application_reference : option (option string)
}.

(** Modelled from the spec: [PlanningApplicationPolygon] is declared in
    [planning_applications.items], which is not among the sources; the
    fields are those the handler passes.  [polygon_geojson] holds the
    value that [json.dumps] writes out. *)
Record PlanningApplicationPolygon : Type := mkPolygon {
  meta_source_url : string;
  polygon_lpa : string;
  polygon_reference : option string;
  polygon_geojson : json
}.

(** A run of the handler: it logs at most once, right before it
    returns, and yields at most once, as its last step. *)
Record ArcgisRun : Type := mkArcgisRun {
  arcgis_ended : res unit;
  arcgis_yielded : list PlanningApplicationPolygon;
  arcgis_logged : list log_record
}.

Definition arcgis_try {A} (r : res A) (k : A -> ArcgisRun) : ArcgisRun :=
  match r with
  | Return a => k a
  | Raise e => mkArcgisRun (Raise e) [] []
  end.

Definition arcgis_error (msg : string) : ArcgisRun :=
  mkArcgisRun (Return tt) [] [mklog ERROR msg].

(** [m[key]] on [meta]. *)
Definition meta_item {A} (slot : option A) : res A :=
  match slot with
  | Some x => Return x
  | None => Raise KeyError
  end.

Definition parse_idox_arcgis (self : IdoxSpider) (response : ArcgisResponse)
  : ArcgisRun :=
  arcgis_try (arcgis_loads response) (fun parsed_response =>
  arcgis_try (subscript parsed_response "features") (fun features =>
  if is_None features
  then arcgis_error ("No features found in response from " +:+ arcgis_url response)
  else
  arcgis_try (len features) (fun n =>
  if (n =? 0)%nat
  then arcgis_error ("No features found in response from " +:+ arcgis_url response)
  else
  arcgis_try (subscript_0 features) (fun feature =>
  arcgis_try (subscript feature "geometry") (fun geometry =>
  if is_None geometry
  then arcgis_error ("No geometry found in response from " +:+ arcgis_url response)
  else
  arcgis_try (subscript feature "properties") (fun properties =>
  if is_None properties
  then arcgis_error ("No geometry found in response from " +:+ arcgis_url response)
  else
  arcgis_try (subscript properties "KEYVAL") (fun keyval =>
  if is_None keyval
  then arcgis_error ("No KEYVAL found in response from " +:+ arcgis_url response)
  else
  arcgis_try (meta_item (arcgis_meta_keyval response)) (fun meta_keyval =>
  if differs_from keyval meta_keyval
  then arcgis_error ("KEYVAL mismatch in response from " +:+ arcgis_url response)
  else
  arcgis_try (meta_item (arcgis_meta_application_reference response)) (fun reference =>
  mkArcgisRun (Return tt)
    [mkPolygon (arcgis_url response) (name self) reference feature] []))))))))).

(** ** [get_cell_for_column_name] (lines 502-510) *)

(** A cell of a table with a header row: a header with its string value
    (the text of the cell and of everything in it, which is what
    [th:contains] tests) or a data cell with its content. *)
Inductive column_cell (A : Type) : Type :=
| Col_th (text : string)
| Col_td (content : A).
Arguments Col_th {A} text.
Arguments Col_td {A} content.

(** [count(preceding-sibling::th)] for every header of a row whose
    string value contains the name, in document order; [seen] counts the
    headers passed. *)
Fixpoint preceding_th_counts {A} (column_name : string) (seen : nat)
    (r : list (column_cell A)) : list nat :=
  match r with
  | [] => []
  | Col_th text :: r' =>
      (if PyStr.contains column_name text then [seen] else [])
      ++ preceding_th_counts column_name (S seen) r'
  | Col_td _ :: r' => preceding_th_counts column_name seen r'
  end.

(** The [td] children of a row. *)
Fixpoint td_children {A} (r : list (column_cell A)) : list A :=
  match r with
  | [] => []
  | Col_th _ :: r' => td_children r'
  | Col_td content :: r' => content :: td_children r'
  end.

(** The function: the first count is read as a number (a count printed
    as a float and read back is the count itself; without a count,
    [float(None)] raises [TypeError], which the handler of [ValueError]
    does not catch), and the selection [./td[column_index + 1]] of the row
    is returned, empty when the row has no such cell.  [column_name]
    holds no apostrophe. *)
Definition get_cell_for_column_name {A} (table : list (list (column_cell A)))
    (row : list (column_cell A)) (column_name : string) : res (list A) :=
  match head (r ← table; preceding_th_counts column_name 0 r) with
  | None => Raise TypeError
  | Some column_index => Return (option_list (td_children row !! column_index))
  end.

(** ** Vocabulary of the properties of the module constants *)

(** The weekday of 1 January of a year, Monday being 0. *)
Definition new_year_weekday (y : Z) : Z := (Calendar.ymd2ord y 1 1 + 6) mod 7.

(** What line 21 computes, by the weekday of 1 January. *)
Definition iso_week_1_monday (y : Z) : date :=
  let w := new_year_weekday y in
  if w =? 0 then mkdate y 1 1
  else if w <=? 3 then mkdate (y - 1) 12 (32 - w)
  else mkdate y 1 (8 - w).

(** ** Vocabulary of the properties of the search form *)

(** ["%d/%m/%Y"], the format of lines 452 and 456. *)
Definition FMT_d_m_Y : list Strptime.directive :=
  [Strptime.Dir_d; Strptime.Dir_lit "/"; Strptime.Dir_m; Strptime.Dir_lit "/";
   Strptime.Dir_Y].

(** The names of the fields [submit_form] can put in the form data. *)
Definition form_fields : list string :=
  ["_csrf"; "caseAddressType"; "date(applicationValidatedStart)";
   "date(applicationValidatedEnd)"; "searchType"; "caseStatus"].

(** ** More sample inputs *)

Module Sample2.

(** A listing under a banner that reports no results. *)
Definition listing_no_results : Page :=
  mkPage None "" ["<div class='messagebox'>No results found.</div>"] 0
    [[mkrow (Some "/app?keyVal=K1&activeTab=summary")]]
    (Some "/search?page=2") [] [].


Definition row_K1 : result_row := mkrow (Some "/app?keyVal=K1&activeTab=summary").

(** A row whose link names no tab. *)
Definition row_without_tab : result_row := mkrow (Some "/app?keyVal=K1").

Definition listing_response (p : Page) : Response :=
  mkResponse Sample.listing_url p 0%nat.

Definition summary_response : Response :=
  mkResponse Sample.summary_url Sample.summary_page 0%nat.

Definition details_response : Response :=
  mkResponse Sample.details_url Sample.details_page 0%nat.

Definition summary : PlanningApplicationDetailsSummary :=
  mkSummary (Some "24/1234/FUL") (Some (mkdatetime 2024 1 1 0 0 0)) None
    (Some "1 High Street") None None None.

Definition further : PlanningApplicationDetailsFurtherInformation :=
  mkFurther (Some "Full Application") None (Some "A. Clerk") None None None None
    None None.

(** The store when the summary, or the further information, of the
    application has arrived. *)
Definition state_with_summary : State :=
  mkState 1 {[0%nat := mkMeta (Some "K1") (Some Sample.listing_url) (Some 10) (Some 1)
                         (Some summary) None]} 1.

Definition state_with_further : State :=
  mkState 1 {[0%nat := mkMeta (Some "K1") (Some Sample.listing_url) (Some 10) (Some 1)
                         None (Some further)]} 1.

(** Settings with equal dates, with a date that is no date, and with a
    status that is no status. *)
Definition settings_one_day : Settings :=
  mkSettings "sample" "https://idox.example/start" 10 true
    (Some (Date_str "2024-03-01")) (Some (Date_obj (mkdate 2024 3 1))) None.

Definition settings_bad_date : Settings :=
  mkSettings "sample" "https://idox.example/start" 10 true
    (Some (Date_str "1 March 2024")) None None.

Definition settings_bad_status : Settings :=
  mkSettings "sample" "https://idox.example/start" 10 true
    (Some (Date_str "2024-03-01")) (Some (Date_str "2024-04-01"))
    (Some (Status_str "decided")).

(** Responses of the map service for the key ["K1"]. *)
Definition feature_K1 : json :=
  JObject [("geometry", JObject [("type", JString "Polygon")]);
           ("properties", JObject [("KEYVAL", JString "K1")])].

Definition feature_collection : json := JObject [("features", JArray [feature_K1])].

Definition arcgis_response (k : string) : ArcgisResponse :=
  mkArcgisResponse "https://gis.example/query" (Return feature_collection)
    (Some k) (Some (Some "24/1234/FUL")).

(** A documents table: its header row and a row of data cells. *)
Definition documents_table : list (list (column_cell string)) :=
  [[Col_th "Date Published"; Col_th "Document Type"; Col_th "Description"];
   [Col_td "01 Jan 2024"; Col_td "Plans"; Col_td "Site plan"]].

(** Two listings that carry the phrase of the too-many-results banner
    where the handler does not act on it: in the second message box
    of the page, behind a notice, and in one message box together with
    the no-results phrase. *)
Definition listing_banner_second : Page :=
  mkPage None ""
    ["<div class='messagebox'>Search results are limited.</div>";
     "<div class='messagebox errors'>Too many results found.</div>"] 0
    [[mkrow (Some "/app?keyVal=K1&activeTab=summary")]]
    (Some "/search?page=2") [] [].

Definition listing_both_phrases : Page :=
  mkPage None ""
    ["<div class='messagebox'>No results found for the address; Too many results found for the date range.</div>"]
    0
    [[mkrow (Some "/app?keyVal=K1&activeTab=summary")]]
    (Some "/search?page=2") [] [].

End Sample2.

(** ** The opening of a crawl *)

(** The crawl right after [start_requests] has run on a fresh store: the
    request it yielded is pending. *)
Definition opened (urljoin : string -> option string -> string)
    (copies_meta dupefilter : bool) (site : string -> Page) (self : IdoxSpider)
  : Crawl :=
  let run := start_requests copies_meta self (mkState 0 ∅ 0) in
  foldl (accept dupefilter) (mkCrawl (final run) [] [] [] (logged run)) (yielded run).

(** * Properties *)

(** ** The primitives on concrete inputs *)

Example split_keyval :
  PyStr.split "keyVal=" "https://h/app?keyVal=ABC&activeTab=summary"
  = ["https://h/app?"; "ABC&activeTab=summary"].
Proof. reflexivity. Qed.

Example split_trailing : PyStr.split "&" "a&&b&" = ["a"; ""; "b"; ""].
Proof. reflexivity. Qed.

Example replace_tab :
  PyStr.replace "activeTab=summary" "activeTab=details" "x?activeTab=summary&k=1"
  = "x?activeTab=details&k=1".
Proof. reflexivity. Qed.

Example strip_both : PyStr.strip "  24/1234/FUL
 " = "24/1234/FUL".
Proof. reflexivity. Qed.

Example ord2ymd_roundtrip_2024_02_29 :
  Calendar.ord2ymd (Calendar.ymd2ord 2024 2 29) = mkdate 2024 2 29.
Proof. reflexivity. Qed.

Example isoweek1_2024 : Calendar.fromisocalendar 2024 1 1 = mkdate 2024 1 1.
Proof. reflexivity. Qed.

Example isoweek1_2026 : Calendar.fromisocalendar 2026 1 1 = mkdate 2025 12 29.
Proof. reflexivity. Qed.

Example isoweek1_2027 : Calendar.fromisocalendar 2027 1 1 = mkdate 2027 1 4.
Proof. reflexivity. Qed.

Example strptime_mon_01_jan_2024 :
  Strptime.strptime "Mon 01 Jan 2024" Strptime.FMT_a_d_b_Y
  = Return (mkdatetime 2024 1 1 0 0 0).
Proof. reflexivity. Qed.

Example strptime_single_digit_day :
  Strptime.strptime "fri   7 JUN 2024" Strptime.FMT_a_d_b_Y
  = Return (mkdatetime 2024 6 7 0 0 0).
Proof. reflexivity. Qed.

Example strptime_impossible_day :
  Strptime.strptime "Fri 30 Feb 2024" Strptime.FMT_a_d_b_Y = Raise ValueError.
Proof. reflexivity. Qed.

Example strptime_day_out_of_range :
  Strptime.strptime "Fri 32 Jan 2024" Strptime.FMT_a_d_b_Y = Raise ValueError.
Proof. reflexivity. Qed.

Example strptime_unconverted :
  Strptime.strptime "Mon 01 Jan 20245" Strptime.FMT_a_d_b_Y = Raise ValueError.
Proof. reflexivity. Qed.

Example strptime_iso_text :
  Strptime.strptime "2024-01-01" Strptime.FMT_a_d_b_Y = Raise ValueError.
Proof. reflexivity. Qed.

Example strptime_default_start :
  Strptime.strptime "2024-11-01" Strptime.FMT_Y_m_d
  = Return (mkdatetime 2024 11 1 0 0 0).
Proof. reflexivity. Qed.

Example lookup_reference :
  _get_horizontal_table_value [[Th ["Reference"]; Td ["24/1234/FUL"]]] "Reference"
  = Some "24/1234/FUL".
Proof. reflexivity. Qed.

Example lookup_substring_header :
  _get_horizontal_table_value
    [[Th ["Reference"]; Td []]; [Th ["Alternative Reference"]; Td [" PP-1 "]]]
    "Reference"
  = Some "PP-1".
Proof. reflexivity. Qed.

Example lookup_blank_cell :
  _get_horizontal_table_value [[Th ["Ward"]; Td ["   "]]] "Ward" = Some "".
Proof. reflexivity. Qed.

(** ** Search query builder *)

(** C5: the form data built by [submit_form] hold no [caseStatus] field
    when the status filter is [ALL], and for every other filter hold
    [caseStatus] with the display string of that filter; the request the
    method yields carries exactly these form data. *)
Theorem submit_form_status_field (self : IdoxSpider) (response : Response) (s : State) :
  (exists r,
      yielded (submit_form self response s) = [Out_Request r]
      /\ req_callback r = CB_parse_results
      /\ req_formdata r = Some (submit_form_formdata self response))
  /\ submit_form_formdata self response !! "caseStatus"
     = match filter_status self with
       | ALL => None
       | status => Some (Some (value status))
       end.
Proof.
  split.
  - eexists. split; [reflexivity | split; reflexivity].
  - unfold submit_form_formdata.
    destruct (filter_status self) eqn:E; simpl;
      first [ by rewrite lookup_insert_eq | by vm_compute ].
Qed.

(** ** Construction: date range and defaults *)

Lemma date_gtb_false (a b : date) : date_gtb a b = false -> date_le a b.
Proof. unfold date_gtb, date_le. lia. Qed.

Lemma init_returns strp now settings spider :
  __init__ strp now settings = Return spider ->
  to_date strp (default class_start_date (arg_start_date settings))
    = Return (start_date spider)
  /\ to_date strp (default (class_end_date now) (arg_end_date settings))
    = Return (end_date spider)
  /\ date_gtb (start_date spider) (end_date spider) = false.
Proof.
  unfold __init__.
  destruct (to_date strp (default class_start_date _)) as [sd|]; [|discriminate].
  destruct (to_date strp (default (class_end_date now) _)) as [ed|]; [|discriminate].
  destruct (to_status _) as [st|]; [|discriminate].
  simpl. destruct (date_gtb sd ed) eqn:E; [discriminate|].
  intros [= <-]. simpl. auto.
Qed.

(** The status attribute is rejected with [ValueError] only. *)
Lemma to_status_raises (a : status_arg) (e : exn) :
  to_status a = Raise e -> e = ValueError.
Proof.
  unfold to_status, applicationStatus_of_value.
  destruct a as [raw|status]; [|discriminate].
  destruct (List.find _ _); [discriminate|]. by intros [= <-].
Qed.

(** C9: every spider the constructor returns has [start_date <= end_date];
    when the two resolved dates are in the reverse order the constructor
    raises [ValueError], so that no spider exists and the engine, which
    asks a constructed spider for its first request, gets no request. *)
Theorem init_date_range strp now settings :
  (forall spider,
      __init__ strp now settings = Return spider ->
      date_le (start_date spider) (end_date spider))
  /\ (forall start_d end_d,
         to_date strp (default class_start_date (arg_start_date settings))
           = Return start_d ->
         to_date strp (default (class_end_date now) (arg_end_date settings))
           = Return end_d ->
         date_gtb start_d end_d = true ->
         __init__ strp now settings = Raise ValueError
         /\ forall copies_meta s,
              open_spider strp now copies_meta settings s = Raise ValueError).
Proof.
  split.
  - intros spider H. apply init_returns in H as (_ & _ & H).
    by apply date_gtb_false.
  - intros start_d end_d Hs He Hgt.
    assert (__init__ strp now settings = Raise ValueError) as Hinit.
    { unfold __init__. rewrite Hs, He. simpl.
      destruct (to_status _) as [st|e] eqn:Hst; simpl; [by rewrite Hgt|].
      apply to_status_raises in Hst. by subst e. }
    split; [done|]. intros copies_meta s. unfold open_spider. by rewrite Hinit.
Qed.

(** C4 (the code departs from the claim): a spider constructed without a
    start date starts at 1 November 2024, the class attribute of line 43
    read as year-month-day, whatever the current year is, and not at
    1 January of the current year; [DEFAULT_START_DATE] plays no part.
    Without an end date the spider ends at the day the module was
    loaded. *)
Theorem default_start_date_is_fixed strp now settings spider :
  arg_start_date settings = None ->
  strp "2024-11-01" = Return (mkdatetime 2024 11 1 0 0 0) ->
  __init__ strp now settings = Return spider ->
  start_date spider = mkdate 2024 11 1
  /\ start_date spider <> mkdate (dt_year now) 1 1
  /\ (arg_end_date settings = None -> end_date spider = datetime_date now).
Proof.
  intros Hnone Hstrp Hinit.
  apply init_returns in Hinit as (Hs & He & _).
  rewrite Hnone in Hs. simpl in Hs. rewrite Hstrp in Hs. simpl in Hs.
  injection Hs as Hs. rewrite <- Hs.
  split; [reflexivity | split; [discriminate |]].
  intros Hend. rewrite Hend in He. simpl in He. by injection He.
Qed.

(** ** Field extractor *)

Lemma following_siblings_none (label : string) (r : row) :
  (forall c, c ∈ r -> th_contains label c = false) ->
  following_siblings label r = [].
Proof.
  induction r as [|c r IH]; intros H; [reflexivity|].
  simpl. rewrite (H c) by by left.
  apply IH. intros c' Hc'. apply H. by right.
Qed.

Lemma following_siblings_first (label : string) (before : row) (c : cell) (rest : row) :
  (forall c', c' ∈ before -> th_contains label c' = false) ->
  th_contains label c = true ->
  following_siblings label (before ++ c :: rest)%list = rest.
Proof.
  induction before as [|b before IH]; intros Hb Hc; simpl.
  - by rewrite Hc.
  - rewrite (Hb b) by by left.
    apply IH; [|done]. intros c' Hc'. apply Hb. by right.
Qed.

Lemma xpath_rows_app (label : string) (t1 t2 : table) :
  xpath_th_following_td_text (t1 ++ t2)%list label
  = (xpath_th_following_td_text t1 label ++ xpath_th_following_td_text t2 label)%list.
Proof. unfold xpath_th_following_td_text. apply bind_app. Qed.

Lemma xpath_rows_cons (label : string) (r : row) (t : table) :
  xpath_th_following_td_text (r :: t) label
  = ((following_siblings label r ≫= td_text)
     ++ xpath_th_following_td_text t label)%list.
Proof. reflexivity. Qed.

Lemma xpath_rows_none (label : string) (t : table) :
  (forall r c, r ∈ t -> c ∈ r -> th_contains label c = false) ->
  xpath_th_following_td_text t label = [].
Proof.
  intros H. induction t as [|r t IH]; [reflexivity|].
  rewrite xpath_rows_cons, IH by (intros r' c Hr Hc; apply (H r' c); [by right | done]).
  rewrite following_siblings_none; [reflexivity|].
  intros c Hc. apply (H r c); [by left | done].
Qed.

(** ** Detail handlers *)

(** Runs a generator symbolically: the monad's operations are unfolded
    and only the projections of states and runs are reduced. *)
Ltac run_gen :=
  unfold mbind, mret, Gen_bind, Gen_ret, lift, log, yield, raise,
    read_meta, update_meta, new_meta, get_applications_scraped,
    set_applications_scraped;
  cbn [ended final yielded logged app applications_scraped dicts next_addr].

Lemma list_index_nil {A} (i : nat) : list_index (@nil A) i = Raise IndexError.
Proof. reflexivity. Qed.

Lemma list_index_head {A} (x : A) (l : list A) : list_index (x :: l) 0 = Return x.
Proof. reflexivity. Qed.

Lemma dict_at_insert (n : Z) (store : gmap nat Meta) (next m : nat) (d : Meta) :
  dict_at (mkState n (<[m := d]> store) next) m = d.
Proof. unfold dict_at. cbn [dicts]. by rewrite lookup_insert_eq. Qed.

Lemma dict_at_insert_twice (n : Z) (store : gmap nat Meta) (next a m : nat) (d : Meta) :
  dict_at (mkState n (<[a := d]> (<[m := d]> store)) next) m = d.
Proof.
  unfold dict_at. cbn [dicts].
  destruct (decide (a = m)) as [->|Hne].
  - by rewrite lookup_insert_eq.
  - rewrite lookup_insert_ne by done. by rewrite lookup_insert_eq.
Qed.

(** C10: a detail response without the table its handler indexes makes
    the handler raise [IndexError]: nothing is yielded and no structure
    is stored.  With the table present the further-information handler
    returns normally and stores the structure read from the table, in
    which an attribute whose label no header of the table contains is
    absent. *)
Theorem missing_table_raises copies_meta self response s :
  (simpleDetailsTable (page response) = [] ->
   let run := parse_details_summary_tab copies_meta self response s in
   ended run = Raise IndexError /\ yielded run = [] /\ final run = s)
  /\ (applicationDetails (page response) = [] ->
      let run := parse_details_further_information_tab copies_meta self response s in
      ended run = Raise IndexError /\ yielded run = [] /\ final run = s)
  /\ (forall t rest,
         applicationDetails (page response) = t :: rest ->
         let run := parse_details_further_information_tab copies_meta self response s in
         ended run = Return tt
         /\ meta_details_further_information (dict_at (final run) (meta response))
            = Some (further_information_of t))
  /\ (forall t label,
         (forall r c, r ∈ t -> c ∈ r -> th_contains label c = false) ->
         _get_horizontal_table_value t label = None).
Proof.
  split; [|split; [|split]].
  - intros H. unfold parse_details_summary_tab. rewrite H, list_index_nil. by run_gen.
  - intros H. unfold parse_details_further_information_tab.
    rewrite H, list_index_nil. by run_gen.
  - intros t rest H. unfold parse_details_further_information_tab.
    rewrite H, list_index_head. run_gen.
    rewrite dict_at_insert. cbn [meta_details_summary].
    case_bool_decide.
    + unfold create_planning_application_item. run_gen. by rewrite dict_at_insert.
    + unfold scrapy_Request. destruct copies_meta; run_gen.
      * by rewrite !dict_at_insert, dict_at_insert_twice.
      * by rewrite dict_at_insert.
  - intros t label H. unfold _get_horizontal_table_value.
    by rewrite xpath_rows_none.
Qed.

(** ** Date normalizer *)



Lemma truthy_nonempty (text : string) : text <> "" -> PyStr.truthy text = true.
Proof. by destruct text. Qed.


(** A date the normalizer returns is a date of the calendar. *)
Lemma strptime_valid (data : string) (fmt : list Strptime.directive) (dt : datetime) :
  Strptime.strptime data fmt = Return dt ->
  Calendar.valid_ymd (dt_year dt) (dt_month dt) (dt_day dt) = true.
Proof.
  unfold Strptime.strptime.
  destruct (Strptime.matches fmt _) as [|[f [|]] ?]; try discriminate.
  destruct (Calendar.valid_ymd _ _ _) eqn:E; [|discriminate].
  by intros [= <-].
Qed.

(** A row in which no value cell with text follows a matching header
    selects no text node. *)
Lemma row_selects_nothing (label : string) (r : row) :
  has_value_text label r = false ->
  following_siblings label r ≫= td_text = [].
Proof.
  induction r as [|c r IH]; [done|].
  cbn [has_value_text following_siblings]. intros H.
  apply orb_false_iff in H as [H Hr].
  destruct (th_contains label c); [|by apply IH].
  cbn [andb] in H. clear IH Hr.
  induction r as [|c' r IH]; [done|].
  cbn [existsb] in H. apply orb_false_iff in H as [Hc' H].
  apply negb_false_iff, bool_decide_eq_true_1 in Hc'.
  cbn [mbind list_bind]. rewrite Hc'. by apply IH.
Qed.

Lemma rows_select_nothing (label : string) (t : table) :
  Forall (fun r => has_value_text label r = false) t ->
  xpath_th_following_td_text t label = [].
Proof.
  induction 1 as [|r t Hr _ IH]; [done|].
  by rewrite xpath_rows_cons, row_selects_nothing, IH.
Qed.

Lemma cells_without_text (cells : list cell) :
  Forall (fun c => td_text c = []) cells -> cells ≫= td_text = [].
Proof.
  induction 1 as [|c cells Hc _ IH]; [done|].
  cbn [mbind list_bind]. by rewrite Hc, IH.
Qed.

(** C7 (amended): the lookup of [label] in a table returns, trimmed, the
    first text node that the value cells after a matching header hold.
    (1) When no row has a header cell containing [label] that is followed
    by a value cell with text, the result is absent; this covers the
    table without such a header.  (2) Otherwise the rows before are
    passed over, and in the first row with such a cell the result is the
    first text node of the first value cell with text after the first
    header that contains [label] (a case-sensitive substring test on its
    text): value cells without text in between are passed over, and so
    are further text nodes of the cell.  (3) On the row
    [<th>Reference</th><td>24/1234/FUL</td>] the label ["Reference"]
    gives ["24/1234/FUL"]. *)
Theorem field_lookup (label : string) :
  (forall t,
      Forall (fun r => has_value_text label r = false) t ->
      _get_horizontal_table_value t label = None)
  /\ (forall pre before header passed text more after post,
         Forall (fun r => has_value_text label r = false) pre ->
         Forall (fun c => th_contains label c = false) before ->
         PyStr.contains label (default "" (head header)) = true ->
         Forall (fun c => td_text c = []) passed ->
         text <> "" ->
         _get_horizontal_table_value
           (pre ++ (before ++ Th header :: passed ++ Td (text :: more) :: after)
                   :: post)%list
           label
         = Some (PyStr.strip text))
  /\ _get_horizontal_table_value [[Th ["Reference"]; Td ["24/1234/FUL"]]] "Reference"
     = Some "24/1234/FUL".
Proof.
  split; [|split].
  - intros t Ht. unfold _get_horizontal_table_value.
    by rewrite rows_select_nothing.
  - intros pre before header passed text more after post Hpre Hbefore Hh Hpassed Htext.
    unfold _get_horizontal_table_value.
    rewrite xpath_rows_app, rows_select_nothing, xpath_rows_cons by done.
    rewrite following_siblings_first
      by (by first [intros c Hc; by apply (proj1 (Forall_forall _ _) Hbefore) | done]).
    rewrite bind_app, cells_without_text by done.
    cbn [app mbind list_bind td_text head].
    change (head (text :: ?l)) with (Some text).
    by rewrite truthy_nonempty.
  - reflexivity.
Qed.

(** C7, where the claim fails: an empty value cell next to the header
    does not make the result absent, the value of a later row whose
    header contains the label, or of a later cell of the row, is
    returned; a value cell of white space gives the empty string; of a
    cell with two text nodes only the first is returned. *)
Lemma lookup_not_the_adjacent_cell :
  _get_horizontal_table_value
    [[Th ["Reference"]; Td []]; [Th ["Alternative Reference"]; Td ["PP-1"]]]
    "Reference"
  = Some "PP-1"
  /\ _get_horizontal_table_value
       [[Th ["Reference"]; Td []; Td ["Pending"]]] "Reference"
     = Some "Pending"
  /\ _get_horizontal_table_value [[Th ["Reference"]; Td ["  "]]] "Reference"
     = Some ""
  /\ _get_horizontal_table_value
       [[Th ["Address"]; Td ["1 High Street"; "Town"]]] "Address"
     = Some "1 High Street".
Proof. repeat split. Qed.

(** A value cell that holds white space only gives the empty string,
    not an absent value: the text is tested before it is trimmed. *)
Lemma lookup_blank_is_empty_string (header : list string) (label : string) :
  PyStr.contains label (default "" (head header)) = true ->
  _get_horizontal_table_value [[Th header; Td ["  "]]] label = Some "".
Proof.
  intros H. unfold _get_horizontal_table_value, xpath_th_following_td_text.
  simpl. by rewrite H.
Qed.

(** ** Pagination walker and crawl controller *)

(** C6 (amended): on a listing page whose first message box says "Too
    many results found" (and not "No results found", which the handler
    tests first) [parse_results] returns normally, yields nothing (no
    detail request, no request for a further page), leaves the state as
    it was and logs exactly one record, an error. *)
Theorem too_many_results_stops urljoin copies_meta self response s banner others :
  messagebox (page response) = banner :: others ->
  PyStr.contains "Too many results found" banner = true ->
  PyStr.contains "No results found" banner = false ->
  let run := parse_results urljoin copies_meta self response s in
  ended run = Return tt
  /\ yielded run = []
  /\ final run = s
  /\ logged run
     = [mklog ERROR ("Too many results found on " +:+ url response
                     +:+ ". Make the search more specific.")].
Proof.
  intros Hbox Htoo Hno. unfold parse_results.
  rewrite Hbox, Hno, Htoo. by unfold log.
Qed.

(** C6, where the claim fails: the handler reads the first message box
    only.  A listing that carries the banner in its second message box is
    walked like any other, with its detail requests and its next page and
    no error; a first message box that holds both phrases is taken for
    "No results found" and logged at level INFO. *)
Lemma too_many_banner_overlooked :
  let second := mkResponse Sample.listing_url Sample2.listing_banner_second 0%nat in
  let both := mkResponse Sample.listing_url Sample2.listing_both_phrases 0%nat in
  let run_second :=
    parse_results Sample.urljoin true Sample.spider second Sample.state0 in
  let run_both :=
    parse_results Sample.urljoin true Sample.spider both Sample.state0 in
  (existsb (PyStr.contains "Too many results found") (messagebox (page second)) = true
   /\ ended run_second = Return tt
   /\ target <$> yielded run_second
      = [Some (Sample.summary_url, CB_parse_details_summary_tab);
         Some (Sample.details_url, CB_parse_details_further_information_tab);
         Some ("https://idox.example/search?page=2", CB_parse_results)]
   /\ errors (logged run_second) = [])
  /\ (existsb (PyStr.contains "Too many results found") (messagebox (page both)) = true
      /\ ended run_both = Return tt
      /\ yielded run_both = []
      /\ errors (logged run_both) = []).
Proof. vm_compute. repeat split. Qed.

(** A row with a non-empty key is dispatched: the counter goes up by one
    and the two detail requests are yielded. *)
Lemma parse_single_result_spawns urljoin copies_meta self result response s k :
  keyval_of (urljoin (url response) (a_href result)) = Return k ->
  k <> "" ->
  should_scrape_application self = true ->
  let run := _parse_single_result urljoin copies_meta self result response s in
  ended run = Return tt
  /\ applications_scraped (final run) = applications_scraped s + 1
  /\ logged run = []
  /\ target <$> yielded run
     = [Some (_get_single_result_details_summary_url urljoin result response,
              CB_parse_details_summary_tab);
        Some (_get_single_result_details_further_information_url urljoin result response,
              CB_parse_details_further_information_tab)].
Proof.
  intros Hk Hne Hshould. unfold _parse_single_result.
  cbv zeta. fold (_get_single_result_details_summary_url urljoin result response) in Hk.
  rewrite Hk. run_gen.
  assert (String.eqb k "" = false) as -> by by apply String.eqb_neq.
  rewrite Hshould. unfold scrapy_Request.
  destruct copies_meta; run_gen; cbn [fmap list_fmap target req_url req_callback];
    repeat split; lia.
Qed.

(** One turn of the loop below the limit, for a row whose dispatch
    returns. *)
Lemma parse_results_rows_below urljoin copies_meta self response result rows s :
  applications_scraped s < limit self ->
  ended (_parse_single_result urljoin copies_meta self result response s) = Return tt ->
  parse_results_rows urljoin copies_meta self response (result :: rows) s
  = let r1 := _parse_single_result urljoin copies_meta self result response s in
    let r2 := parse_results_rows urljoin copies_meta self response rows (final r1) in
    mkRun (ended r2) (final r2) (yielded r1 ++ yielded r2)%list
      (mklog INFO ("heading into " +:+ str_of (a_href result))
       :: logged r1 ++ logged r2)%list.
Proof.
  intros Hlt Hend. cbn [parse_results_rows]. run_gen.
  assert ((limit self <=? applications_scraped s) = false) as -> by lia.
  destruct (_parse_single_result _ _ _ _ _ s) as [e1 s1 y1 l1].
  cbn [ended final yielded logged] in *. subst e1.
  by destruct (parse_results_rows _ _ _ _ _ s1).
Qed.

(** One turn of the loop at the limit: the method returns. *)
Lemma parse_results_rows_at_limit urljoin copies_meta self response result rows s :
  limit self <= applications_scraped s ->
  parse_results_rows urljoin copies_meta self response (result :: rows) s
  = mkRun (Return true) s []
      [mklog INFO ("heading into " +:+ str_of (a_href result));
       mklog INFO ("Reached the limit of " +:+ pretty (limit self) +:+ " applications")].
Proof.
  intros Hle. cbn [parse_results_rows]. run_gen.
  assert ((limit self <=? applications_scraped s) = true) as -> by lia.
  reflexivity.
Qed.

(** C2: on a listing page of three rows, with the limit at 2 and nothing
    scraped yet, [parse_results] yields the two detail requests of the
    first row and then those of the second and nothing else: the third
    row is not dispatched and no next page is requested, whatever link
    the page carries. *)
Theorem limit_two_of_three urljoin copies_meta self response s r1 r2 r3 others k1 k2 :
  messagebox (page response) = [] ->
  applicationTools (page response) = 0%nat ->
  searchresults (page response) = [r1; r2; r3] :: others ->
  limit self = 2 ->
  applications_scraped s = 0 ->
  should_scrape_application self = true ->
  keyval_of (urljoin (url response) (a_href r1)) = Return k1 -> k1 <> "" ->
  keyval_of (urljoin (url response) (a_href r2)) = Return k2 -> k2 <> "" ->
  let run := parse_results urljoin copies_meta self response s in
  ended run = Return tt
  /\ applications_scraped (final run) = 2
  /\ target <$> yielded run
     = [Some (_get_single_result_details_summary_url urljoin r1 response,
              CB_parse_details_summary_tab);
        Some (_get_single_result_details_further_information_url urljoin r1 response,
              CB_parse_details_further_information_tab);
        Some (_get_single_result_details_summary_url urljoin r2 response,
              CB_parse_details_summary_tab);
        Some (_get_single_result_details_further_information_url urljoin r2 response,
              CB_parse_details_further_information_tab)].
Proof.
  intros Hbox Htools Hrows Hlimit Hzero Hshould Hk1 Hne1 Hk2 Hne2.
  destruct (parse_single_result_spawns urljoin copies_meta self r1 response s k1)
    as (E1 & C1 & L1 & Y1); [done..|].
  set (s1 := final (_parse_single_result urljoin copies_meta self r1 response s)) in *.
  destruct (parse_single_result_spawns urljoin copies_meta self r2 response s1 k2)
    as (E2 & C2 & L2 & Y2); [done..|].
  set (s2 := final (_parse_single_result urljoin copies_meta self r2 response s1)) in *.
  unfold parse_results, parse_results_listing. rewrite Hbox, Htools, Hrows.
  cbn [Nat.ltb Nat.leb]. run_gen.
  rewrite parse_results_rows_below by (done || lia). cbv zeta. fold s1.
  rewrite parse_results_rows_below by (done || lia). cbv zeta. fold s2.
  rewrite parse_results_rows_at_limit by lia.
  cbn [ended final yielded logged].
  split; [done|]. split; [lia|].
  by rewrite !app_nil_r, fmap_app, Y1, Y2.
Qed.

(** ** Rows without a key *)

Lemma append_empty_r (s : string) : s +:+ "" = s.
Proof.
  induction s as [|c s IH]; [reflexivity|].
  change (String c s +:+ "") with (String c (s +:+ "")). by rewrite IH.
Qed.

Lemma append_char_assoc (a : string) (c : ascii) (b : string) :
  (a +:+ String c "") +:+ b = a +:+ String c b.
Proof.
  induction a as [|x a IH]; [reflexivity|].
  change ((String x a +:+ String c "") +:+ b)
    with (String x ((a +:+ String c "") +:+ b)).
  by rewrite IH.
Qed.

Lemma split_go_absent (sep s cur : string) :
  PyStr.contains sep s = false ->
  PyStr.split_go sep s 0 cur = [cur +:+ s].
Proof.
  revert cur. induction s as [|c s IH]; intros cur H.
  - cbn [PyStr.split_go]. by rewrite append_empty_r.
  - cbn [PyStr.contains] in H. apply orb_false_iff in H as [Hstart Hrest].
    cbn [PyStr.split_go]. rewrite Hstart, IH by done.
    by rewrite append_char_assoc.
Qed.

(** A URL without ["keyVal="] is split into one piece, and taking piece 1
    raises. *)
Lemma keyval_of_absent (details_summary_url : string) :
  PyStr.contains "keyVal=" details_summary_url = false ->
  keyval_of details_summary_url = Raise IndexError.
Proof.
  intros H. unfold keyval_of, PyStr.split. by rewrite split_go_absent.
Qed.

(** A row whose key is present and empty is logged and skipped: nothing
    is yielded, the counter stays and the method returns. *)
Lemma empty_keyval_skipped urljoin copies_meta self result response s :
  keyval_of (urljoin (url response) (a_href result)) = Return "" ->
  _parse_single_result urljoin copies_meta self result response s
  = mkRun (Return tt) s []
      [mklog ERROR ("Failed to parse keyval from "
                    +:+ urljoin (url response) (a_href result)
                    +:+ ", can't continue")].
Proof.
  intros Hk. unfold _parse_single_result. cbv zeta.
  fold (_get_single_result_details_summary_url urljoin result response) in Hk.
  rewrite Hk. by run_gen.
Qed.

(** C3 (the code departs from the claim): when the link of a row holds no
    ["keyVal="], so that it yields no key at all, [parse_results] is ended
    by [IndexError] at that row: no error is logged by the spider, the
    rows after it are not dispatched and no next page is requested. *)
Theorem row_without_keyval_aborts_page urljoin copies_meta self response s
    result rows others :
  messagebox (page response) = [] ->
  applicationTools (page response) = 0%nat ->
  searchresults (page response) = (result :: rows) :: others ->
  applications_scraped s < limit self ->
  PyStr.contains "keyVal=" (urljoin (url response) (a_href result)) = false ->
  let run := parse_results urljoin copies_meta self response s in
  ended run = Raise IndexError
  /\ yielded run = []
  /\ final run = s
  /\ Forall (fun l => levelname l = INFO) (logged run).
Proof.
  intros Hbox Htools Hrows Hlt Hno.
  unfold parse_results, parse_results_listing. rewrite Hbox, Htools, Hrows.
  cbn [Nat.ltb Nat.leb parse_results_rows]. run_gen.
  assert ((limit self <=? applications_scraped s) = false) as -> by lia.
  unfold _parse_single_result. cbv zeta.
  unfold _get_single_result_details_summary_url at 1.
  rewrite keyval_of_absent by done. run_gen.
  repeat split. by repeat constructor.
Qed.

(** ** Detail aggregator *)

(** X8.  The summary handler never yields a record: it raises, or it yields
    one request, for the URL it was itself called on, with the
    further-information handler as callback. *)
Lemma summary_tab_never_emits copies_meta self response s :
  let run := parse_details_summary_tab copies_meta self response s in
  yielded run = []
  \/ exists r, yielded run = [Out_Request r]
       /\ req_url r = url response
       /\ req_callback r = CB_parse_details_further_information_tab.
Proof.
  unfold parse_details_summary_tab.
  destruct (simpleDetailsTable (page response)) as [|t rest].
  { rewrite list_index_nil. run_gen. by left. }
  rewrite list_index_head. run_gen.
  destruct (date_cell_value _ _) as [received|e]; run_gen; [|by left].
  destruct (date_cell_value _ _) as [validated|e]; run_gen; [|by left].
  rewrite dict_at_insert. cbn [meta_details_further_information].
  case_bool_decide.
  - unfold create_planning_application_item. run_gen. by left.
  - unfold scrapy_Request. destruct copies_meta; run_gen; right; by eexists.
Qed.

(** X7.  On a summary page with its table and date cells that parse,
    when the further information is already in the dictionary, the
    summary handler stores the structure it has read, keeps the further
    information and the counter, and is then ended by the [TypeError] of
    the call at line 219, which lacks the [response] argument: nothing is
    yielded. *)
Lemma summary_tab_second_raises copies_meta self response s t rest received validated :
  simpleDetailsTable (page response) = t :: rest ->
  date_cell_value (_get_horizontal_table_value t "Application Received") None
    = Return received ->
  date_cell_value (_get_horizontal_table_value t "Application Validated") None
    = Return validated ->
  is_Some (meta_details_further_information (dict_at s (meta response))) ->
  let run := parse_details_summary_tab copies_meta self response s in
  ended run = Raise TypeError
  /\ yielded run = []
  /\ meta_details_summary (dict_at (final run) (meta response))
     = Some (summary_of t received validated)
  /\ meta_details_further_information (dict_at (final run) (meta response))
     = meta_details_further_information (dict_at s (meta response))
  /\ applications_scraped (final run) = applications_scraped s.
Proof.
  intros Ht Hr Hv Hsome. unfold parse_details_summary_tab.
  rewrite Ht, list_index_head.
  cbn [new_PlanningApplicationDetailsSummary ds_application_received
       ds_application_validated].
  run_gen. rewrite Hr. run_gen. rewrite Hv. run_gen.
  rewrite dict_at_insert. cbn [meta_details_further_information].
  rewrite bool_decide_eq_true_2 by done.
  unfold create_planning_application_item. run_gen.
  by rewrite dict_at_insert.
Qed.

(** The further-information handler yields nothing, or one request for
    the URL it was itself called on with the summary handler as callback,
    or, when the summary was already in the dictionary, the generator
    object of the merge. *)
Lemma further_information_tab_yields copies_meta self response s :
  let run := parse_details_further_information_tab copies_meta self response s in
  yielded run = []
  \/ (exists r, yielded run = [Out_Request r]
        /\ req_url r = url response
        /\ req_callback r = CB_parse_details_summary_tab)
  \/ (yielded run = [Out_Generator (meta response)]
      /\ is_Some (meta_details_summary (dict_at s (meta response)))).
Proof.
  unfold parse_details_further_information_tab.
  destruct (applicationDetails (page response)) as [|t rest].
  { rewrite list_index_nil. run_gen. by left. }
  rewrite list_index_head. run_gen.
  rewrite dict_at_insert. cbn [meta_details_summary].
  case_bool_decide.
  - unfold create_planning_application_item. run_gen. right. right. by split.
  - unfold scrapy_Request. destruct copies_meta; run_gen; right; left; by eexists.
Qed.

(** C1 (the code departs from the claim): on the sample site, when the
    further-information page of the application arrives first, then in
    every order of the remaining arrivals the crawl comes to rest with
    nothing handed to the sink: no record, and no generator of one.  This
    holds whether or not the engine copies [meta] and whether or not it
    filters repeated requests. *)
Theorem supplementary_first_emits_nothing (copies_meta dupefilter : bool) :
  let finals :=
    outcomes Sample.urljoin copies_meta dupefilter Sample.site Sample.spider 6
      (deliver Sample.urljoin copies_meta dupefilter Sample.site Sample.spider 1
         (Sample.dispatched copies_meta dupefilter)) in
  finals <> []
  /\ Forall (fun c => pending c = [] /\ sink c = []) finals.
Proof.
  destruct copies_meta, dupefilter; vm_compute;
    (split; [discriminate | repeat constructor]).
Qed.

(** In the other order, and with an engine that keeps the dictionary it
    is given and filters nothing, the crawl comes to rest with one
    generator object in the sink, whose body would yield the merged
    record. *)
Lemma summary_first_shared_meta :
  let finals :=
    outcomes Sample.urljoin false false Sample.site Sample.spider 6
      (deliver Sample.urljoin false false Sample.site Sample.spider 0
         (Sample.dispatched false false)) in
  finals <> []
  /\ Forall (fun c =>
       pending c = []
       /\ exists m, sink c = [Out_Generator m]
            /\ create_planning_application_item_body Sample.spider
                 (dict_at (spider_state c) m)
               = Return [Sample.merged]) finals.
Proof.
  vm_compute. split; [discriminate|].
  repeat constructor; eexists; split; reflexivity.
Qed.

(** With an engine that copies [meta], neither order hands anything to
    the sink. *)
Lemma summary_first_copied_meta (dupefilter : bool) :
  let finals :=
    outcomes Sample.urljoin true dupefilter Sample.site Sample.spider 6
      (deliver Sample.urljoin true dupefilter Sample.site Sample.spider 0
         (Sample.dispatched true dupefilter)) in
  finals <> []
  /\ Forall (fun c => pending c = [] /\ sink c = []) finals.
Proof.
  destruct dupefilter; vm_compute;
    (split; [discriminate | repeat constructor]).
Qed.

(** ** The theorems at concrete inputs *)

Lemma init_date_range_witness :
  date_le (mkdate 2024 1 1) (mkdate 2024 3 1)
  /\ open_spider Sample.strptime_Y_m_d Sample.now true Sample.settings_reversed
       Sample.state0
     = Raise ValueError.
Proof.
  split.
  - apply (proj1 (init_date_range Sample.strptime_Y_m_d Sample.now
                    Sample.settings_ordered)
             (mkSpider "sample" "https://idox.example/start" 10 true
                (mkdate 2024 1 1) (mkdate 2024 3 1) DECIDED)).
    reflexivity.
  - apply (proj2 (init_date_range Sample.strptime_Y_m_d Sample.now
                    Sample.settings_reversed)
             (mkdate 2024 3 1) (mkdate 2024 1 1)); reflexivity.
Defined.

Lemma default_start_date_is_fixed_witness :
  let spider :=
    mkSpider "sample" "https://idox.example/start" 10 true
      (mkdate 2024 11 1) (mkdate 2026 11 3) ALL in
  __init__ Sample.strptime_Y_m_d Sample.now Sample.settings_without_dates
    = Return spider
  /\ start_date spider = mkdate 2024 11 1
  /\ start_date spider <> mkdate 2026 1 1
  /\ end_date spider = mkdate 2026 11 3.
Proof.
  intros spider. split; [reflexivity|].
  destruct (default_start_date_is_fixed Sample.strptime_Y_m_d Sample.now
              Sample.settings_without_dates spider)
    as (H1 & H2 & H3); [reflexivity..|].
  split; [exact H1 | split; [exact H2 | exact (H3 eq_refl)]].
Defined.

Lemma missing_table_raises_witness :
  let response := mkResponse Sample.listing_url empty_page 0%nat in
  ended (parse_details_summary_tab true Sample.spider response Sample.state0)
    = Raise IndexError
  /\ ended (parse_details_further_information_tab true Sample.spider response
              Sample.state0)
     = Raise IndexError
  /\ ended (parse_details_further_information_tab true Sample.spider
              (mkResponse Sample.details_url Sample.details_page 0%nat) Sample.state0)
     = Return tt
  /\ _get_horizontal_table_value [[Th ["Ward"]; Td ["Central"]]] "Parish" = None.
Proof.
  intros response.
  destruct (missing_table_raises true Sample.spider response Sample.state0)
    as (H1 & H2 & _ & H4).
  destruct (missing_table_raises true Sample.spider
              (mkResponse Sample.details_url Sample.details_page 0%nat) Sample.state0)
    as (_ & _ & H3 & _).
  split; [exact (proj1 (H1 eq_refl))|].
  split; [exact (proj1 (H2 eq_refl))|].
  split; [exact (proj1 (H3 _ _ eq_refl))|].
  apply H4. intros r c Hr Hc.
  apply list_elem_of_singleton in Hr as ->.
  apply elem_of_cons in Hc as [-> | Hc]; [reflexivity|].
  apply list_elem_of_singleton in Hc as ->. reflexivity.
Defined.


Lemma field_lookup_witness :
  _get_horizontal_table_value
    [[Th ["Reference"]; Td []];
     [Th ["Status"]; Th ["Address"]; Td []; Td [" 1 High Street "; "Town"]]] "Address"
  = Some "1 High Street"
  /\ _get_horizontal_table_value
       [[Th ["Reference"]; Td ["24/1234/FUL"]]; [Th ["Address"]; Td []]] "Address"
     = None.
Proof.
  destruct (field_lookup "Address") as (H1 & H2 & _).
  split.
  - apply (H2 [[Th ["Reference"]; Td []]] [Th ["Status"]] ["Address"] [Td []]
             " 1 High Street " ["Town"] [] []);
      [by repeat constructor | by repeat constructor | reflexivity
      | by repeat constructor | discriminate].
  - apply H1. by repeat constructor.
Defined.

Lemma too_many_results_stops_witness :
  let run :=
    parse_results Sample.urljoin true Sample.spider
      (mkResponse Sample.listing_url Sample.listing_too_many 0%nat) Sample.state0 in
  ended run = Return tt
  /\ yielded run = []
  /\ final run = Sample.state0
  /\ logged run
     = [mklog ERROR
          "Too many results found on https://idox.example/search. Make the search more specific."].
Proof.
  apply (too_many_results_stops Sample.urljoin true Sample.spider
           (mkResponse Sample.listing_url Sample.listing_too_many 0%nat)
           Sample.state0 _ _ eq_refl); reflexivity.
Defined.

Lemma limit_two_of_three_witness :
  let run :=
    parse_results Sample.urljoin true Sample.spider_limit_2
      (mkResponse Sample.listing_url Sample.listing_of_three 0%nat) Sample.state0 in
  ended run = Return tt
  /\ applications_scraped (final run) = 2
  /\ target <$> yielded run
     = [Some ("https://idox.example/app?keyVal=K1&activeTab=summary",
              CB_parse_details_summary_tab);
        Some ("https://idox.example/app?keyVal=K1&activeTab=details",
              CB_parse_details_further_information_tab);
        Some ("https://idox.example/app?keyVal=K2&activeTab=summary",
              CB_parse_details_summary_tab);
        Some ("https://idox.example/app?keyVal=K2&activeTab=details",
              CB_parse_details_further_information_tab)].
Proof.
  apply (limit_two_of_three Sample.urljoin true Sample.spider_limit_2
           (mkResponse Sample.listing_url Sample.listing_of_three 0%nat)
           Sample.state0 _ _ _ _ "K1" "K2" eq_refl eq_refl eq_refl eq_refl eq_refl
           eq_refl eq_refl);
    [discriminate | reflexivity | discriminate].
Defined.

Lemma row_without_keyval_aborts_page_witness :
  let run :=
    parse_results Sample.urljoin true Sample.spider
      (mkResponse Sample.listing_url Sample.listing_with_bad_row 0%nat)
      Sample.state0 in
  ended run = Raise IndexError
  /\ yielded run = []
  /\ final run = Sample.state0
  /\ Forall (fun l => levelname l = INFO) (logged run).
Proof.
  apply (row_without_keyval_aborts_page Sample.urljoin true Sample.spider
           (mkResponse Sample.listing_url Sample.listing_with_bad_row 0%nat)
           Sample.state0 _ _ _ eq_refl eq_refl eq_refl); reflexivity.
Defined.

(** The unused constant of line 21 in 2026: the Monday that opens ISO
    week 1, which is not 1 January either. *)
Example default_start_date_constant_2026 :
  DEFAULT_START_DATE Sample.now = mkdate 2025 12 29.
Proof. reflexivity. Qed.

(** * Further properties of the code *)

(** ** Pagination walker *)

(** X1.  On a page whose first message box says "No results found",
    [parse_results] returns at once: it yields nothing, leaves the state
    as it was and logs one record, at level INFO, whatever else the page
    holds. *)
Theorem no_results_stops urljoin copies_meta self response s banner others :
  messagebox (page response) = banner :: others ->
  PyStr.contains "No results found" banner = true ->
  let run := parse_results urljoin copies_meta self response s in
  ended run = Return tt
  /\ yielded run = []
  /\ final run = s
  /\ logged run = [mklog INFO ("No applications found on " +:+ url response)].
Proof.
  intros Hbox Hno. unfold parse_results. rewrite Hbox, Hno. by unfold log.
Qed.

Lemma parse_results_passes urljoin copies_meta self response :
  passes_banner (page response) = true ->
  parse_results urljoin copies_meta self response
  = parse_results_listing urljoin copies_meta self response.
Proof.
  unfold passes_banner, parse_results.
  destruct (messagebox (page response)) as [|b others]; [done|].
  destruct (PyStr.contains "No results found" b); [done|].
  by destruct (PyStr.contains "Too many results found" b).
Qed.

(** X2.  A page that passes the banner test and carries [#applicationTools] is
    handled as the summary page of one application: [parse_results] logs
    one record and then does exactly what [parse_details_summary_tab]
    does on the same response; no row is visited and no next page is
    requested. *)
Theorem single_application_short_circuit urljoin copies_meta self response s :
  passes_banner (page response) = true ->
  (0 < applicationTools (page response))%nat ->
  let run := parse_results urljoin copies_meta self response s in
  let summary := parse_details_summary_tab copies_meta self response s in
  ended run = ended summary
  /\ final run = final summary
  /\ yielded run = yielded summary
  /\ logged run
     = mklog INFO ("Only one application found on " +:+ url response)
       :: logged summary.
Proof.
  intros Hpass Htools. cbv zeta. rewrite parse_results_passes by done.
  unfold parse_results_listing.
  assert ((0 <? applicationTools (page response))%nat = true) as ->
    by by apply Nat.ltb_lt.
  run_gen.
  by destruct (parse_details_summary_tab copies_meta self response s) as [[[]|e] s1 y1 l1].
Qed.

Lemma errors_app (l1 l2 : list log_record) :
  errors (l1 ++ l2) = (errors l1 ++ errors l2)%list.
Proof. apply filter_app. Qed.

Lemma errors_info (msg : string) (l : list log_record) :
  errors (mklog INFO msg :: l) = errors l.
Proof. unfold errors. rewrite filter_cons. by rewrite decide_False. Qed.

Lemma errors_error (msg : string) (l : list log_record) :
  errors (mklog ERROR msg :: l) = mklog ERROR msg :: errors l.
Proof. unfold errors. rewrite filter_cons. by rewrite decide_True. Qed.

(** What [_parse_single_result] does on a row whose link holds a key,
    empty or not. *)
Lemma parse_single_result_keyed urljoin copies_meta self result response s k :
  row_key urljoin response result = Return k ->
  let run := _parse_single_result urljoin copies_meta self result response s in
  let d := dispatches urljoin self response result in
  ended run = Return tt
  /\ applications_scraped (final run)
     = applications_scraped s + (if d then 1 else 0)
  /\ target <$> yielded run
     = (if d then detail_targets urljoin response result else [])
  /\ length (errors (logged run))
     = (if empty_key urljoin response result then 1 else 0)%nat.
Proof.
  intros Hk. cbv zeta. unfold dispatches, empty_key. rewrite Hk.
  destruct k as [|c k].
  - unfold row_key in Hk.
    rewrite (empty_keyval_skipped urljoin copies_meta self result response s Hk).
    cbn [ended final yielded logged PyStr.truthy andb negb fmap list_fmap].
    repeat split; lia.
  - destruct (should_scrape_application self) eqn:Hshould.
    + destruct (parse_single_result_spawns urljoin copies_meta self result response s
                  (String c k) Hk) as (He & Hc & Hl & Hy); [done..|].
      cbn [PyStr.truthy andb negb]. rewrite Hl. by repeat split.
    + unfold _parse_single_result. cbv zeta. unfold row_key in Hk.
      fold (_get_single_result_details_summary_url urljoin result response) in Hk.
      rewrite Hk. run_gen. rewrite Hshould.
      cbn [PyStr.truthy andb negb String.eqb]. run_gen.
      repeat split; lia.
Qed.


(** The listing part of [parse_results] around its loop: when the loop
    ends without an exception the method returns, and the request for
    the next page follows the requests of the rows exactly when the loop
    ran to its end. *)
Lemma listing_after_rows urljoin copies_meta self response rows others s b :
  passes_banner (page response) = true ->
  applicationTools (page response) = 0%nat ->
  searchresults (page response) = rows :: others ->
  ended (parse_results_rows urljoin copies_meta self response rows s) = Return b ->
  let run := parse_results urljoin copies_meta self response s in
  let walk := parse_results_rows urljoin copies_meta self response rows s in
  ended run = Return tt
  /\ applications_scraped (final run) = applications_scraped (final walk)
  /\ target <$> yielded run
     = ((target <$> yielded walk)
        ++ (if b then [] else next_page_target urljoin response))%list
  /\ errors (logged run) = errors (logged walk).
Proof.
  intros Hpass Htools Hrows Hend. cbv zeta.
  rewrite parse_results_passes by done.
  unfold parse_results_listing. rewrite Htools, Hrows.
  cbn [Nat.ltb Nat.leb]. run_gen.
  destruct (parse_results_rows urljoin copies_meta self response rows s)
    as [e1 s1 y1 l1].
  cbn [ended final yielded logged] in *. subst e1.
  unfold next_page_target.
  destruct b.
  { cbn [ended final yielded logged]. rewrite !app_nil_r.
    repeat split; try done; by rewrite errors_info. }
  destruct (next_href (page response)) as [next_page|].
  2:{ cbn [ended final yielded logged]. rewrite !app_nil_r.
      repeat split; try done; by rewrite errors_info. }
  destruct (PyStr.truthy next_page).
  2:{ cbn [ended final yielded logged]. rewrite !app_nil_r.
      repeat split; try done; by rewrite errors_info. }
  unfold scrapy_Request. run_gen.
  rewrite fmap_app, errors_info, errors_app, errors_info.
  cbn [fmap list_fmap target req_url req_callback errors filter list_filter].
  rewrite !app_nil_r. by repeat split.
Qed.


(** The loop over rows that are all dispatched, under any limit: with
    [n] the number of applications the limit still allows, the first [n]
    rows are dispatched, and the loop leaves the method exactly when a
    row is left over. *)
Lemma rows_cut_at_limit urljoin copies_meta self response rows s :
  Forall (fun r => dispatches urljoin self response r = true) rows ->
  let n := Z.to_nat (limit self - applications_scraped s) in
  let run := parse_results_rows urljoin copies_meta self response rows s in
  ended run = Return (bool_decide (n < length rows)%nat)
  /\ applications_scraped (final run)
     = applications_scraped s + Z.of_nat (n `min` length rows)
  /\ target <$> yielded run = take n rows ≫= detail_targets urljoin response.
Proof.
  cbv zeta. revert s. induction rows as [|r rows IH]; intros s Hall.
  { cbn [parse_results_rows]. run_gen. cbn [length].
    rewrite Nat.min_0_r, take_nil. repeat split. lia. }
  apply Forall_cons in Hall as [Hr Hall].
  destruct (decide (limit self <= applications_scraped s)) as [Hle|Hlt].
  - rewrite parse_results_rows_at_limit by done.
    assert (Z.to_nat (limit self - applications_scraped s) = 0%nat) as -> by lia.
    cbn [ended final yielded logged length take].
    rewrite bool_decide_eq_true_2 by lia. repeat split. cbn. lia.
  - assert (exists k, row_key urljoin response r = Return k) as [k Hk].
    { unfold dispatches in Hr. destruct (row_key urljoin response r); [by eexists|done]. }
    destruct (parse_single_result_keyed urljoin copies_meta self r response s k Hk)
      as (He & Hc & Hy & _).
    rewrite Hr in Hc, Hy.
    rewrite parse_results_rows_below by (done || lia). cbv zeta.
    set (s1 := final (_parse_single_result urljoin copies_meta self r response s)) in *.
    destruct (IH s1 Hall) as (IHe & IHc & IHy).
    assert (Z.to_nat (limit self - applications_scraped s)
            = S (Z.to_nat (limit self - applications_scraped s1))) as Hn by lia.
    rewrite Hn. cbn [ended final yielded logged length take].
    split; [|split].
    + rewrite IHe. f_equal. apply bool_decide_ext. lia.
    + rewrite IHc, Hc. lia.
    + by rewrite fmap_app, Hy, IHy.
Qed.

(** X4.  A listing page whose rows are all dispatched, under any limit: with
    [n] the number of applications the limit still allows, exactly the
    first [n] rows get their detail requests.  When a row is left over
    nothing more is requested; when the rows run out first (also when
    the limit is reached by the last row of the page) the next page is
    still requested. *)
Theorem page_cut_at_limit urljoin copies_meta self response rows others s :
  passes_banner (page response) = true ->
  applicationTools (page response) = 0%nat ->
  searchresults (page response) = rows :: others ->
  Forall (fun r => dispatches urljoin self response r = true) rows ->
  let n := Z.to_nat (limit self - applications_scraped s) in
  let run := parse_results urljoin copies_meta self response s in
  ended run = Return tt
  /\ applications_scraped (final run)
     = applications_scraped s + Z.of_nat (n `min` length rows)
  /\ target <$> yielded run
     = ((take n rows ≫= detail_targets urljoin response)
        ++ (if bool_decide (n < length rows)%nat then []
            else next_page_target urljoin response))%list.
Proof.
  intros Hpass Htools Hrows Hall. cbv zeta.
  destruct (rows_cut_at_limit urljoin copies_meta self response rows s Hall)
    as (He & Hc & Hy).
  destruct (listing_after_rows urljoin copies_meta self response rows others s _
              Hpass Htools Hrows He) as (He' & Hc' & Hy' & _).
  by rewrite He', Hc', Hy', Hc, Hy.
Qed.

(** ** Crawl controller: the context of the detail requests *)

(** Reads of the store after writes at addresses told apart by [lia]. *)
Ltac store_simpl :=
  unfold dict_at; cbn [dicts default from_option id];
  repeat first [ rewrite lookup_insert_eq
               | rewrite lookup_insert_ne by lia ];
  cbn [default from_option id].

(** X5.  A dispatched row yields exactly two requests.  The dictionary of
    each holds the key of the row, the URL of the listing, the limit and
    the counter after the increment, and neither detail structure.  An
    engine that keeps the dictionary it is given makes the two requests
    share one dictionary; an engine that copies gives each its own. *)
Theorem detail_requests_context urljoin copies_meta self result response s k :
  row_key urljoin response result = Return k ->
  k <> "" ->
  should_scrape_application self = true ->
  let run := _parse_single_result urljoin copies_meta self result response s in
  let context :=
    mkMeta (Some k) (Some (url response)) (Some (limit self))
      (Some (applications_scraped s + 1)) None None in
  exists r1 r2,
    yielded run = [Out_Request r1; Out_Request r2]
    /\ dict_at (final run) (req_meta r1) = context
    /\ dict_at (final run) (req_meta r2) = context
    /\ (req_meta r1 = req_meta r2 <-> copies_meta = false).
Proof.
  intros Hk Hne Hshould. cbv zeta. unfold _parse_single_result. cbv zeta.
  unfold row_key in Hk.
  fold (_get_single_result_details_summary_url urljoin result response) in Hk.
  rewrite Hk. run_gen.
  assert (String.eqb k "" = false) as -> by by apply String.eqb_neq.
  rewrite Hshould. unfold scrapy_Request.
  destruct copies_meta; run_gen.
  - do 2 eexists. split; [reflexivity|].
    cbn [req_meta]. store_simpl.
    repeat split; try done. intros ?. exfalso. lia.
  - do 2 eexists. split; [reflexivity|].
    cbn [req_meta]. by store_simpl.
Qed.

(** ** Detail aggregator *)

(** X6.  The handler that runs first.  On a summary page with its table and
    parseable dates, and with no further information in the dictionary,
    the summary handler returns and yields one request: for the URL of
    the response itself, with the further-information handler as
    callback, and with a dictionary that holds the summary just read. *)
Theorem summary_first_arrival copies_meta self response s t rest received validated :
  simpleDetailsTable (page response) = t :: rest ->
  date_cell_value (_get_horizontal_table_value t "Application Received") None
    = Return received ->
  date_cell_value (_get_horizontal_table_value t "Application Validated") None
    = Return validated ->
  meta_details_further_information (dict_at s (meta response)) = None ->
  let run := parse_details_summary_tab copies_meta self response s in
  ended run = Return tt
  /\ exists r,
       yielded run = [Out_Request r]
       /\ req_url r = url response
       /\ req_callback r = CB_parse_details_further_information_tab
       /\ meta_details_summary (dict_at (final run) (req_meta r))
          = Some (summary_of t received validated)
       /\ meta_details_further_information (dict_at (final run) (req_meta r)) = None.
Proof.
  intros Ht Hr Hv Hnone. cbv zeta. unfold parse_details_summary_tab.
  rewrite Ht, list_index_head.
  cbn [new_PlanningApplicationDetailsSummary ds_application_received
       ds_application_validated].
  run_gen. rewrite Hr. run_gen. rewrite Hv. run_gen.
  rewrite dict_at_insert. cbn [meta_details_further_information].
  rewrite Hnone. rewrite bool_decide_eq_false_2 by (intros [? ?]; done).
  unfold scrapy_Request. destruct copies_meta; run_gen.
  - rewrite !dict_at_insert. split; [done|]. eexists. split; [reflexivity|].
    cbn [req_url req_callback req_meta]. by rewrite dict_at_insert.
  - split; [done|]. eexists. split; [reflexivity|].
    cbn [req_url req_callback req_meta]. by rewrite dict_at_insert.
Qed.

(** X9.  The same for the further-information handler when it runs first. *)
Theorem further_first_arrival copies_meta self response s t rest :
  applicationDetails (page response) = t :: rest ->
  meta_details_summary (dict_at s (meta response)) = None ->
  let run := parse_details_further_information_tab copies_meta self response s in
  ended run = Return tt
  /\ exists r,
       yielded run = [Out_Request r]
       /\ req_url r = url response
       /\ req_callback r = CB_parse_details_summary_tab
       /\ meta_details_further_information (dict_at (final run) (req_meta r))
          = Some (further_information_of t)
       /\ meta_details_summary (dict_at (final run) (req_meta r)) = None.
Proof.
  intros Ht Hnone. cbv zeta. unfold parse_details_further_information_tab.
  rewrite Ht, list_index_head. run_gen.
  rewrite dict_at_insert. cbn [meta_details_summary].
  rewrite Hnone. rewrite bool_decide_eq_false_2 by (intros [? ?]; done).
  unfold scrapy_Request. destruct copies_meta; run_gen.
  - rewrite !dict_at_insert. split; [done|]. eexists. split; [reflexivity|].
    cbn [req_url req_callback req_meta]. by rewrite dict_at_insert.
  - split; [done|]. eexists. split; [reflexivity|].
    cbn [req_url req_callback req_meta]. by rewrite dict_at_insert.
Qed.

(** X10.  The merge.  When the further-information handler finds its table and
    a summary already in the dictionary, it returns and yields one value,
    the generator object of [create_planning_application_item] on that
    dictionary; the body of the generator, run on the dictionary as the
    handler leaves it, yields exactly one record: the site name, the
    attributes of the stored summary and the attributes read from this
    page. *)
Theorem further_information_merges copies_meta self response s t rest ds :
  applicationDetails (page response) = t :: rest ->
  meta_details_summary (dict_at s (meta response)) = Some ds ->
  let run := parse_details_further_information_tab copies_meta self response s in
  ended run = Return tt
  /\ yielded run = [Out_Generator (meta response)]
  /\ create_planning_application_item_body self (dict_at (final run) (meta response))
     = Return [item_of (name self) ds (further_information_of t)].
Proof.
  intros Ht Hds. cbv zeta. unfold parse_details_further_information_tab.
  rewrite Ht, list_index_head. run_gen.
  rewrite dict_at_insert. cbn [meta_details_summary].
  rewrite Hds. rewrite bool_decide_eq_true_2 by by eexists.
  unfold create_planning_application_item. run_gen.
  rewrite dict_at_insert. unfold create_planning_application_item_body.
  cbn [meta_details_summary meta_details_further_information].
  by rewrite ?Hds.
Qed.

(** ** Keys and tab links: the string operations of the controller *)

Lemma append_cons (c : ascii) (s t : string) :
  String c s +:+ t = String c (s +:+ t).
Proof. reflexivity. Qed.

Lemma append_assoc (a b c : string) : (a +:+ b) +:+ c = a +:+ (b +:+ c).
Proof.
  induction a as [|x a IH]; [reflexivity|].
  by rewrite !append_cons, IH.
Qed.

Lemma length_append (a b : string) :
  String.length (a +:+ b) = (String.length a + String.length b)%nat.
Proof.
  induction a as [|x a IH]; [reflexivity|].
  rewrite append_cons. cbn [String.length]. by rewrite IH.
Qed.

Lemma startswith_refl_app (p s : string) : PyStr.startswith p (p +:+ s) = true.
Proof.
  induction p as [|x p IH]; [by destruct s|].
  rewrite append_cons. cbn [PyStr.startswith]. by rewrite Ascii.eqb_refl.
Qed.

(** Whether [s] starts with [p] is decided by the first [length p]
    characters of [s]. *)
Lemma startswith_app_long (p s t : string) :
  (String.length p <= String.length s)%nat ->
  PyStr.startswith p (s +:+ t) = PyStr.startswith p s.
Proof.
  revert s. induction p as [|x p IH]; intros s Hlen.
  - by destruct s, t.
  - destruct s as [|y s]; [cbn in Hlen; lia|].
    rewrite append_cons. cbn [PyStr.startswith].
    destruct (Ascii.eqb x y); [|reflexivity].
    apply IH. cbn in Hlen. lia.
Qed.

Lemma contains_cons_false (p : string) (c : ascii) (s : string) :
  PyStr.contains p (String c s) = false ->
  PyStr.startswith p (String c s) = false /\ PyStr.contains p s = false.
Proof. cbn [PyStr.contains]. intros H. by apply orb_false_iff in H. Qed.

(** Passing over the rest of a separator that has been matched. *)
Lemma split_go_skip (sep x b cur : string) :
  PyStr.split_go sep (x +:+ b) (String.length x) cur = PyStr.split_go sep b 0 cur.
Proof.
  induction x as [|c x IH]; [by destruct b|].
  rewrite append_cons. cbn [PyStr.split_go String.length]. apply IH.
Qed.

Lemma replace_go_skip (old new x b : string) :
  PyStr.replace_go old new (x +:+ b) (String.length x) = PyStr.replace_go old new b 0.
Proof.
  induction x as [|c x IH]; [by destruct b|].
  rewrite append_cons. cbn [PyStr.replace_go String.length]. apply IH.
Qed.

Lemma split_go_match (sep b cur : string) :
  sep <> "" ->
  PyStr.split_go sep (sep +:+ b) 0 cur = cur :: PyStr.split_go sep b 0 "".
Proof.
  intros Hne. destruct sep as [|y q]; [done|].
  pose proof (startswith_refl_app (String y q) b) as Hstart.
  rewrite append_cons in *. cbn [PyStr.split_go]. rewrite Hstart.
  cbn [String.length Nat.pred]. f_equal. apply split_go_skip.
Qed.

Lemma snoc_nonempty (p : string) (c : ascii) : p +:+ String c "" <> "".
Proof. by destruct p. Qed.

(** A prefix that is too short to end an occurrence of the separator
    does not start one either, whatever follows the separator. *)
Lemma startswith_before_first (p : string) (c x : ascii) (a b : string) :
  PyStr.startswith (p +:+ String c "") (String x a +:+ (p +:+ String c "") +:+ b)
  = PyStr.startswith (p +:+ String c "") (String x a +:+ p).
Proof.
  rewrite <- (startswith_app_long (p +:+ String c "") (String x a +:+ p)
                (String c "" +:+ b)).
  - by rewrite !append_assoc.
  - rewrite !length_append. cbn [String.length]. lia.
Qed.

(** [split] at the first occurrence of the separator [p ++ c]: the text
    [a] before it is the first piece. *)
Lemma split_go_first (p : string) (c : ascii) (a b cur : string) :
  PyStr.contains (p +:+ String c "") (a +:+ p) = false ->
  PyStr.split_go (p +:+ String c "") (a +:+ (p +:+ String c "") +:+ b) 0 cur
  = (cur +:+ a) :: PyStr.split_go (p +:+ String c "") b 0 "".
Proof.
  revert cur. induction a as [|x a IH]; intros cur H.
  - change ("" +:+ (p +:+ String c "") +:+ b) with ((p +:+ String c "") +:+ b).
    rewrite append_empty_r. apply split_go_match, snoc_nonempty.
  - pose proof (startswith_before_first p c x a b) as Hsame.
    rewrite append_cons in H. apply contains_cons_false in H as [Hstart Hrest].
    rewrite <- append_cons in Hstart. rewrite Hstart in Hsame.
    rewrite append_cons in *. cbn [PyStr.split_go]. rewrite Hsame.
    rewrite IH by done. by rewrite append_char_assoc.
Qed.

Lemma replace_go_absent (old new s : string) :
  PyStr.contains old s = false -> PyStr.replace_go old new s 0 = s.
Proof.
  induction s as [|c s IH]; intros H; [reflexivity|].
  apply contains_cons_false in H as [Hstart Hrest].
  cbn [PyStr.replace_go]. by rewrite Hstart, IH.
Qed.

Lemma replace_go_match (old new b : string) :
  old <> "" ->
  PyStr.replace_go old new (old +:+ b) 0 = new +:+ PyStr.replace_go old new b 0.
Proof.
  intros Hne. destruct old as [|y q]; [done|].
  pose proof (startswith_refl_app (String y q) b) as Hstart.
  rewrite append_cons in *. cbn [PyStr.replace_go]. rewrite Hstart.
  cbn [String.length Nat.pred]. f_equal. apply replace_go_skip.
Qed.

(** [replace] at the first occurrence of [p ++ c]. *)
Lemma replace_go_first (p : string) (c : ascii) (new a b : string) :
  PyStr.contains (p +:+ String c "") (a +:+ p) = false ->
  PyStr.replace_go (p +:+ String c "") new (a +:+ (p +:+ String c "") +:+ b) 0
  = a +:+ new +:+ PyStr.replace_go (p +:+ String c "") new b 0.
Proof.
  induction a as [|x a IH]; intros H.
  - change ("" +:+ (p +:+ String c "") +:+ b) with ((p +:+ String c "") +:+ b).
    apply replace_go_match, snoc_nonempty.
  - pose proof (startswith_before_first p c x a b) as Hsame.
    rewrite append_cons in H. apply contains_cons_false in H as [Hstart Hrest].
    rewrite <- append_cons in Hstart. rewrite Hstart in Hsame.
    rewrite !append_cons in *. cbn [PyStr.replace_go]. rewrite Hsame.
    by rewrite IH.
Qed.

(** A separator occurrence cannot begin inside [x] and run over a
    following ["&"] or ["k"]: neither is a character of ["eyVal="]. *)
Lemma startswith_keyval_stop (x : string) (c : ascii) (rest : string) :
  x <> "" ->
  c = "&"%char \/ c = "k"%char ->
  PyStr.startswith "keyVal=" (x +:+ String c rest) = PyStr.startswith "keyVal=" x.
Proof.
  intros Hx Hc.
  destruct x as [|c0 [|c1 [|c2 [|c3 [|c4 [|c5 [|c6 x]]]]]]]; [done|..].
  7:{ apply startswith_app_long. cbn [String.length]. lia. }
  all: rewrite ?append_cons; change ("" +:+ String c rest) with (String c rest);
    cbn [PyStr.startswith];
    repeat match goal with
           | |- context [Ascii.eqb ?a ?b] =>
               destruct (Ascii.eqb a b) eqn:?; try reflexivity
           end;
    repeat match goal with
           | H : Ascii.eqb _ _ = true |- _ => apply Ascii.eqb_eq in H
           end;
    destruct Hc; congruence.
Qed.

(** Splitting passes over a text without the separator that is followed
    by ["&"] or ["k"], and collects it. *)
Lemma split_go_keyval_prefix (x : string) (c : ascii) (rest cur : string) :
  PyStr.contains "keyVal=" x = false ->
  c = "&"%char \/ c = "k"%char ->
  PyStr.split_go "keyVal=" (x +:+ String c rest) 0 cur
  = PyStr.split_go "keyVal=" (String c rest) 0 (cur +:+ x).
Proof.
  intros Hx Hc. revert cur Hx.
  induction x as [|d x IH]; intros cur Hx.
  - by rewrite append_empty_r.
  - apply contains_cons_false in Hx as [Hstart Hx].
    rewrite append_cons. cbn [PyStr.split_go].
    rewrite <- append_cons, startswith_keyval_stop, Hstart by done.
    by rewrite IH, append_char_assoc.
Qed.

(** The first piece of a split begins with what was collected. *)
Lemma split_go_head (sep s : string) (skip : nat) (cur : string) :
  exists piece pieces,
    PyStr.split_go sep s skip cur = (cur +:+ piece) :: pieces.
Proof.
  revert skip cur. induction s as [|c s IH]; intros skip cur.
  - exists "", []. by rewrite append_empty_r.
  - cbn [PyStr.split_go]. destruct skip as [|skip]; [|apply IH].
    destruct (PyStr.startswith sep (String c s)).
    + exists "". eexists. by rewrite append_empty_r.
    + destruct (IH 0%nat (cur +:+ String c "")) as (piece & pieces & ->).
      exists (String c piece), pieces. by rewrite append_char_assoc.
Qed.

(** X11.  The key of a link.  When [a] is what precedes the first
    ["keyVal="] of the link, and [k] is the text after it, free of ["&"]
    and of ["keyVal="], that runs to the end of the link, to an ["&"] or
    to a further ["keyVal="], then line 129 computes [k] (the empty
    string when [k] is empty), whatever follows. *)
Theorem keyval_extracted (a k rest : string) :
  PyStr.contains "keyVal=" a = false ->
  PyStr.contains "keyVal=" k = false ->
  PyStr.contains "&" k = false ->
  rest = ""
  \/ (exists rest', rest = "&" +:+ rest')
  \/ (exists rest', rest = "keyVal=" +:+ rest') ->
  keyval_of (a +:+ "keyVal=" +:+ k +:+ rest) = Return k.
Proof.
  intros Ha Hk Hamp Hrest.
  assert (exists piece pieces,
             PyStr.split "keyVal=" (a +:+ "keyVal=" +:+ k +:+ rest)
             = a :: piece :: pieces
             /\ PyStr.split "&" piece !! 0%nat = Some k)
    as (piece & pieces & Hsplit & Hpiece).
  { unfold PyStr.split.
    change ("keyVal=" +:+ k +:+ rest) with (String "k" ("eyVal=" +:+ k +:+ rest)).
    rewrite split_go_keyval_prefix by auto.
    change (String "k" ("eyVal=" +:+ k +:+ rest)) with ("keyVal=" +:+ k +:+ rest).
    rewrite split_go_match by done.
    change ("" +:+ a) with a.
    destruct Hrest as [-> | [[rest' ->] | [rest' ->]]].
    - exists k, []. rewrite append_empty_r, !split_go_absent by done. done.
    - change ("&" +:+ rest') with (String "&" rest').
      rewrite split_go_keyval_prefix by auto.
      cbn [PyStr.split_go PyStr.startswith Ascii.eqb Bool.eqb].
      destruct (split_go_head "keyVal=" rest' 0 (("" +:+ k) +:+ "&"))
        as (piece & pieces & ->).
      eexists _, _. split; [reflexivity|].
      change ("" +:+ k) with k. rewrite append_assoc. unfold PyStr.split.
      assert (PyStr.split_go "&" (k +:+ "&" +:+ piece) 0 ""
              = k :: PyStr.split_go "&" piece 0 "") as ->; [|reflexivity].
      apply (split_go_first "" "&" k piece ""). by rewrite append_empty_r.
    - change ("keyVal=" +:+ rest') with (String "k" ("eyVal=" +:+ rest')).
      rewrite split_go_keyval_prefix by auto.
      change (String "k" ("eyVal=" +:+ rest')) with ("keyVal=" +:+ rest').
      rewrite split_go_match by done.
      eexists _, _. split; [reflexivity|].
      change ("" +:+ k) with k. by rewrite split_go_absent. }
  unfold keyval_of, list_index. rewrite Hsplit.
  cbn [lookup list_lookup res_bind]. rewrite Hpiece.
  cbn [res_bind]. by destruct k.
Qed.

(** X12.  The tab links of a row.  When the summary link holds
    ["activeTab=summary"] once, each of the other tab links is the
    summary link with the name of its tab in the place of ["summary"]. *)
Theorem tab_links_derived urljoin result response (a b : string) :
  _get_single_result_details_summary_url urljoin result response
    = a +:+ "activeTab=summary" +:+ b ->
  PyStr.contains "activeTab=summary" (a +:+ "activeTab=summar") = false ->
  PyStr.contains "activeTab=summary" b = false ->
  _get_single_result_details_further_information_url urljoin result response
    = a +:+ "activeTab=details" +:+ b
  /\ _get_single_result_comments_public_url urljoin result response
     = a +:+ "activeTab=neighbourComments" +:+ b
  /\ _get_single_result_comments_consultee_url urljoin result response
     = a +:+ "activeTab=consulteeComments" +:+ b
  /\ _get_single_result_documents_url urljoin result response
     = a +:+ "activeTab=documents" +:+ b
  /\ _get_single_result_related_cases_url urljoin result response
     = a +:+ "activeTab=relatedcases" +:+ b
  /\ _get_single_result_map_url urljoin result response
     = a +:+ "activeTab=map" +:+ b.
Proof.
  intros Hu Ha Hb.
  assert (forall new,
             PyStr.replace "activeTab=summary" new
               (_get_single_result_details_summary_url urljoin result response)
             = a +:+ new +:+ b) as Hreplace.
  { intros new. rewrite Hu. unfold PyStr.replace.
    rewrite <- (replace_go_absent "activeTab=summary" new b Hb) at 2.
    exact (replace_go_first "activeTab=summar" "y" new a b Ha). }
  unfold _get_single_result_details_further_information_url,
    _get_single_result_comments_public_url,
    _get_single_result_comments_consultee_url,
    _get_single_result_documents_url,
    _get_single_result_related_cases_url,
    _get_single_result_map_url.
  by rewrite !Hreplace.
Qed.

(** X13.  When the summary link holds no ["activeTab=summary"], every tab link
    is the summary link itself; the two detail requests of the row then
    go to one and the same URL. *)
Theorem tab_links_without_marker urljoin result response :
  let u := _get_single_result_details_summary_url urljoin result response in
  PyStr.contains "activeTab=summary" u = false ->
  _get_single_result_details_further_information_url urljoin result response = u
  /\ _get_single_result_comments_public_url urljoin result response = u
  /\ _get_single_result_comments_consultee_url urljoin result response = u
  /\ _get_single_result_documents_url urljoin result response = u
  /\ _get_single_result_related_cases_url urljoin result response = u
  /\ _get_single_result_map_url urljoin result response = u
  /\ detail_targets urljoin response result
     = [Some (u, CB_parse_details_summary_tab);
        Some (u, CB_parse_details_further_information_tab)].
Proof.
  intros u Hno.
  unfold detail_targets,
    _get_single_result_details_further_information_url,
    _get_single_result_comments_public_url,
    _get_single_result_comments_consultee_url,
    _get_single_result_documents_url,
    _get_single_result_related_cases_url,
    _get_single_result_map_url, PyStr.replace.
  fold u. by rewrite !replace_go_absent.
Qed.

(** ** Construction: status strings and configuration errors *)

(** A string that is the display string of no member is rejected. *)
Lemma status_of_value_rejects raw :
  (forall status, value status <> raw) ->
  applicationStatus_of_value raw = Raise ValueError.
Proof.
  intros Hnone. unfold applicationStatus_of_value.
  destruct (List.find _ all_statuses) as [found|] eqn:Hfind; [|reflexivity].
  apply List.find_some in Hfind as [_ Heq]. apply String.eqb_eq in Heq.
  by destruct (Hnone found).
Qed.

(** X14.  The status enumeration and its display strings are in one-to-one
    correspondence: looking a display string up gives back its member,
    a string is accepted exactly when it is the display string of the
    member returned, and every other string is rejected with
    [ValueError].  The empty string is the display string of [ALL]. *)
Theorem status_of_value_roundtrip :
  (forall status, applicationStatus_of_value (value status) = Return status)
  /\ (forall raw status,
         applicationStatus_of_value raw = Return status <-> value status = raw)
  /\ (forall raw,
         (forall status, value status <> raw) ->
         applicationStatus_of_value raw = Raise ValueError).
Proof.
  assert (forall status, applicationStatus_of_value (value status) = Return status)
    as Hround by (by intros []).
  assert (forall raw status,
             applicationStatus_of_value raw = Return status -> value status = raw)
    as Hsound.
  { intros raw status. unfold applicationStatus_of_value.
    destruct (List.find _ all_statuses) as [found|] eqn:Hfind; [|discriminate].
    intros [= <-]. apply List.find_some in Hfind as [_ Heq].
    by apply String.eqb_eq in Heq. }
  split; [exact Hround|]. split.
  - intros raw status. split; [apply Hsound|]. intros <-. apply Hround.
  - exact status_of_value_rejects.
Qed.

Lemma date_le_not_gtb (a b : date) : date_le a b -> date_gtb a b = false.
Proof. unfold date_gtb, date_le. lia. Qed.

(** X15.  The constructor accepts every ordered pair of dates, equal dates
    included: when the three attributes resolve and the start date is not
    after the end date, the spider is constructed with exactly these
    attributes and the given name, start URL, limit and scrape switch. *)
Theorem init_accepts_ordered_dates strp now settings start_d end_d status :
  to_date strp (default class_start_date (arg_start_date settings)) = Return start_d ->
  to_date strp (default (class_end_date now) (arg_end_date settings)) = Return end_d ->
  to_status (default class_filter_status (arg_filter_status settings)) = Return status ->
  date_le start_d end_d ->
  __init__ strp now settings
  = Return (mkSpider (arg_name settings) (arg_start_url settings)
              (arg_limit settings) (arg_should_scrape_application settings)
              start_d end_d status).
Proof.
  intros Hs He Hf Hle. unfold __init__. rewrite Hs, He, Hf.
  cbn [res_bind]. by rewrite date_le_not_gtb.
Qed.

(** X16.  Configuration errors end the constructor.  A date string the format
    does not parse makes the constructor raise what the parser raises,
    the start date being parsed before the end date; with both dates
    resolved, a status string that is no display string of the enumeration
    makes it raise [ValueError], whatever the dates are. *)
Theorem init_fails_fast strp now settings :
  (forall e,
      to_date strp (default class_start_date (arg_start_date settings)) = Raise e ->
      __init__ strp now settings = Raise e)
  /\ (forall start_d e,
         to_date strp (default class_start_date (arg_start_date settings))
           = Return start_d ->
         to_date strp (default (class_end_date now) (arg_end_date settings))
           = Raise e ->
         __init__ strp now settings = Raise e)
  /\ (forall start_d end_d raw,
         to_date strp (default class_start_date (arg_start_date settings))
           = Return start_d ->
         to_date strp (default (class_end_date now) (arg_end_date settings))
           = Return end_d ->
         arg_filter_status settings = Some (Status_str raw) ->
         (forall status, value status <> raw) ->
         __init__ strp now settings = Raise ValueError).
Proof.
  split; [|split].
  - intros e Hs. unfold __init__. by rewrite Hs.
  - intros start_d e Hs He. unfold __init__. by rewrite Hs, He.
  - intros start_d end_d raw Hs He Hraw Hnone. unfold __init__.
    rewrite Hs, He, Hraw. cbn [res_bind default from_option id to_status].
    by rewrite status_of_value_rejects.
Qed.

(** ** Date normalizer *)

Lemma lower_three (w : string) (x y z : ascii) :
  PyStr.lower w = String x (String y (String z "")) ->
  exists a b c,
    w = String a (String b (String c ""))
    /\ PyStr.lower_char a = x /\ PyStr.lower_char b = y /\ PyStr.lower_char c = z.
Proof.
  destruct w as [|a [|b [|c [|d w]]]]; try discriminate.
  cbn [PyStr.lower]. intros [= <- <- <-]. by exists a, b, c.
Qed.

Lemma weekday_matched (w rest : string) (f : Strptime.fields) :
  PyStr.lower w ∈ Strptime.a_weekday ->
  Strptime.step Strptime.Dir_a (f, w +:+ rest) = [(f, rest)].
Proof.
  unfold Strptime.a_weekday. intros Hw.
  repeat (apply elem_of_cons in Hw as [Hw | Hw];
          [apply lower_three in Hw as (a & b & c & -> & Ha & Hb & Hc);
           rewrite !append_cons;
           unfold Strptime.step, Strptime.re_names, Strptime.a_weekday;
           cbn [PyStr.lower PyStr.startswith]; rewrite Ha, Hb, Hc;
           reflexivity|]).
  by apply elem_of_nil in Hw.
Qed.

(** X18.  The weekday of a date text is matched without regard to case and
    then ignored: two texts that differ only in the weekday name they
    start with are parsed alike, so that a weekday that does not fit the
    date goes unnoticed. *)
Theorem weekday_not_checked (w1 w2 rest : string) (fmt : list Strptime.directive) :
  PyStr.lower w1 ∈ Strptime.a_weekday ->
  PyStr.lower w2 ∈ Strptime.a_weekday ->
  Strptime.strptime (w1 +:+ rest) (Strptime.Dir_a :: fmt)
  = Strptime.strptime (w2 +:+ rest) (Strptime.Dir_a :: fmt).
Proof.
  intros H1 H2. unfold Strptime.strptime.
  cbn [Strptime.matches]. by rewrite !weekday_matched.
Qed.

(** ** Field extractor: what a lookup can return *)

Lemma rstrip_idem (s : string) : PyStr.rstrip (PyStr.rstrip s) = PyStr.rstrip s.
Proof.
  induction s as [|c s IH]; [reflexivity|].
  cbn [PyStr.rstrip]. destruct (PyStr.rstrip s) as [|d r] eqn:E.
  - destruct (PyStr.is_space c) eqn:Hc; [reflexivity|].
    cbn [PyStr.rstrip]. by rewrite Hc.
  - cbn [PyStr.rstrip]. cbn [PyStr.rstrip] in IH. by rewrite IH.
Qed.

Lemma lstrip_starts_clean (s : string) : starts_clean (PyStr.lstrip s).
Proof.
  induction s as [|c s IH]; [done|].
  cbn [PyStr.lstrip]. by destruct (PyStr.is_space c) eqn:Hc.
Qed.

Lemma lstrip_of_clean (s : string) : starts_clean s -> PyStr.lstrip s = s.
Proof. destruct s as [|c s]; [done|]. cbn. by intros ->. Qed.

Lemma rstrip_starts_clean (s : string) : starts_clean s -> starts_clean (PyStr.rstrip s).
Proof.
  destruct s as [|c s]; [done|]. cbn [starts_clean PyStr.rstrip]. intros Hc.
  destruct (PyStr.rstrip s); by rewrite ?Hc.
Qed.

Lemma strip_trimmed (s : string) :
  PyStr.lstrip (PyStr.strip s) = PyStr.strip s
  /\ PyStr.rstrip (PyStr.strip s) = PyStr.strip s.
Proof.
  unfold PyStr.strip. split.
  - apply lstrip_of_clean, rstrip_starts_clean, lstrip_starts_clean.
  - apply rstrip_idem.
Qed.

Lemma following_siblings_split (label : string) (r : row) (c : cell) :
  c ∈ following_siblings label r ->
  exists before header after,
    r = (before ++ Th header :: after)%list
    /\ PyStr.contains label (default "" (head header)) = true
    /\ c ∈ after.
Proof.
  induction r as [|x r IH]; [by intros ?%elem_of_nil|].
  cbn [following_siblings]. destruct (th_contains label x) eqn:Hx.
  - intros Hc. destruct x as [header|texts]; [|discriminate].
    by exists [], header, r.
  - intros Hc. destruct (IH Hc) as (before & header & after & -> & Hh & Hin).
    by exists (x :: before), header, after.
Qed.

(** X19.  A value the lookup returns comes from the table and is trimmed: it
    is the stripped form of a non-empty text node of a value cell that
    follows, in its row, a header cell whose text contains the label; and
    it neither starts nor ends with white space. *)
Theorem lookup_value_from_table (t : table) (label v : string) :
  _get_horizontal_table_value t label = Some v ->
  (exists r before header after texts text,
      r ∈ t
      /\ r = (before ++ Th header :: after)%list
      /\ PyStr.contains label (default "" (head header)) = true
      /\ Td texts ∈ after
      /\ text ∈ texts
      /\ text <> ""
      /\ v = PyStr.strip text)
  /\ PyStr.lstrip v = v
  /\ PyStr.rstrip v = v.
Proof.
  unfold _get_horizontal_table_value.
  destruct (head (xpath_th_following_td_text t label)) as [text|] eqn:Hhead;
    [|discriminate].
  destruct (PyStr.truthy text) eqn:Htruthy; [|discriminate].
  intros [= <-]. split; [|apply strip_trimmed].
  apply head_Some_elem_of in Hhead. unfold xpath_th_following_td_text in Hhead.
  apply list_elem_of_bind in Hhead as (r & Hr & Hrt).
  apply list_elem_of_bind in Hr as (c & Htext & Hc).
  destruct c as [header'|texts]; [by apply elem_of_nil in Htext|].
  cbn [td_text] in Htext.
  apply following_siblings_split in Hc as (before & header & after & -> & Hh & Hin).
  exists (before ++ Th header :: after)%list, before, header, after, texts, text.
  repeat split; try done. by intros ->.
Qed.

(** ** Map service *)

Lemma differs_from_false (v : json) (k : string) :
  differs_from v k = false <-> v = JString k.
Proof.
  destruct v as [| | |s| |]; cbn [differs_from]; try (split; discriminate).
  rewrite negb_false_iff, String.eqb_eq. split; [by intros -> | by intros [= ->]].
Qed.

(** X20.  A polygon is emitted only for the key that was asked for.  Whenever
    [parse_idox_arcgis] yields a polygon, the first feature of the
    response carries, as [KEYVAL], the string that [meta] holds as the
    key of the request; the polygon is the only thing yielded, nothing is
    logged, and it holds the URL of the response, the site name, the
    application reference of [meta] and that first feature. *)
Theorem arcgis_polygon_only_for_matching_key self response polygon :
  polygon ∈ arcgis_yielded (parse_idox_arcgis self response) ->
  exists parsed_response features feature properties k reference,
    arcgis_loads response = Return parsed_response
    /\ subscript parsed_response "features" = Return features
    /\ subscript_0 features = Return feature
    /\ subscript feature "properties" = Return properties
    /\ subscript properties "KEYVAL" = Return (JString k)
    /\ arcgis_meta_keyval response = Some k
    /\ arcgis_meta_application_reference response = Some reference
    /\ polygon = mkPolygon (arcgis_url response) (name self) reference feature
    /\ parse_idox_arcgis self response = mkArcgisRun (Return tt) [polygon] [].
Proof.
  unfold parse_idox_arcgis, arcgis_try, arcgis_error, meta_item.
  destruct (arcgis_loads response) as [parsed_response|] eqn:Hl;
    [|by intros ?%elem_of_nil].
  destruct (subscript parsed_response "features") as [features|] eqn:Hf;
    [|by intros ?%elem_of_nil].
  destruct (is_None features); [by intros ?%elem_of_nil|].
  destruct (len features) as [n|]; [|by intros ?%elem_of_nil].
  destruct (n =? 0)%nat; [by intros ?%elem_of_nil|].
  destruct (subscript_0 features) as [feature|] eqn:Hf0; [|by intros ?%elem_of_nil].
  destruct (subscript feature "geometry") as [geometry|]; [|by intros ?%elem_of_nil].
  destruct (is_None geometry); [by intros ?%elem_of_nil|].
  destruct (subscript feature "properties") as [properties|] eqn:Hp;
    [|by intros ?%elem_of_nil].
  destruct (is_None properties); [by intros ?%elem_of_nil|].
  destruct (subscript properties "KEYVAL") as [keyval|] eqn:Hk;
    [|by intros ?%elem_of_nil].
  destruct (is_None keyval); [by intros ?%elem_of_nil|].
  destruct (arcgis_meta_keyval response) as [k|] eqn:Hmk; [|by intros ?%elem_of_nil].
  destruct (differs_from keyval k) eqn:Hkey; [by intros ?%elem_of_nil|].
  apply differs_from_false in Hkey as ->.
  destruct (arcgis_meta_application_reference response) as [reference|] eqn:Hmr;
    [|by intros ?%elem_of_nil].
  cbn [arcgis_yielded]. intros ->%list_elem_of_singleton.
  by exists parsed_response, features, feature, properties, k, reference.
Qed.

(** X21.  Every run of [parse_idox_arcgis] has one of three shapes: it is
    ended by an exception, with nothing yielded and nothing logged; or it
    returns after logging exactly one error, with nothing yielded; or it
    returns after yielding exactly one polygon, with nothing logged. *)
Theorem arcgis_run_shapes self response :
  let run := parse_idox_arcgis self response in
  (exists e, run = mkArcgisRun (Raise e) [] [])
  \/ (exists msg, run = mkArcgisRun (Return tt) [] [mklog ERROR msg])
  \/ (exists polygon, run = mkArcgisRun (Return tt) [polygon] []).
Proof.
  cbv zeta. unfold parse_idox_arcgis, arcgis_try, arcgis_error.
  repeat match goal with
         | |- context [match ?x with _ => _ end] => destruct x
         end;
    eauto.
Qed.

(** X22.  The mismatch of keys.  When the response is well formed up to the
    [KEYVAL] of its first feature, which is not null, and [meta] holds a
    key that this [KEYVAL] is not (a different string, or no string at
    all), the handler yields no polygon and logs one error. *)
Theorem arcgis_keyval_mismatch self response parsed_response features n feature
    geometry properties keyval k :
  arcgis_loads response = Return parsed_response ->
  subscript parsed_response "features" = Return features ->
  is_None features = false ->
  len features = Return (S n) ->
  subscript_0 features = Return feature ->
  subscript feature "geometry" = Return geometry -> is_None geometry = false ->
  subscript feature "properties" = Return properties -> is_None properties = false ->
  subscript properties "KEYVAL" = Return keyval -> is_None keyval = false ->
  arcgis_meta_keyval response = Some k ->
  keyval <> JString k ->
  parse_idox_arcgis self response
  = mkArcgisRun (Return tt) []
      [mklog ERROR ("KEYVAL mismatch in response from " +:+ arcgis_url response)].
Proof.
  intros Hl Hf Hfn Hlen Hf0 Hg Hgn Hp Hpn Hk Hkn Hmeta Hne.
  unfold parse_idox_arcgis, arcgis_try, arcgis_error, meta_item.
  rewrite Hl, Hf, Hfn, Hlen. cbn [Nat.eqb].
  rewrite Hf0, Hg, Hgn, Hp, Hpn, Hk, Hkn, Hmeta.
  destruct (differs_from keyval k) eqn:Hd; [reflexivity|].
  by apply differs_from_false in Hd.
Qed.

(** X23.  What the guards do not cover.  A response whose JSON is no object
    ends the handler with [TypeError], an object without ["features"]
    with [KeyError], and a text that is no JSON with the error of
    [json.loads]: in each case nothing is logged by the handler. *)
Theorem arcgis_unguarded_shapes self response :
  (forall parsed_response,
      arcgis_loads response = Return parsed_response ->
      (forall members, parsed_response <> JObject members) ->
      parse_idox_arcgis self response = mkArcgisRun (Raise TypeError) [] [])
  /\ (forall members,
         arcgis_loads response = Return (JObject members) ->
         member "features" members = None ->
         parse_idox_arcgis self response = mkArcgisRun (Raise KeyError) [] [])
  /\ (forall e,
         arcgis_loads response = Raise e ->
         parse_idox_arcgis self response = mkArcgisRun (Raise e) [] []).
Proof.
  unfold parse_idox_arcgis, arcgis_try. split; [|split].
  - intros parsed_response -> Hshape.
    destruct parsed_response as [| | | | |members]; try reflexivity.
    by destruct (Hshape members).
  - intros members -> Hnone. cbn [subscript]. by rewrite Hnone.
  - by intros e ->.
Qed.

(** ** Cells by column name *)



Lemma preceding_th_counts_headers {A} (column_name : string) (seen : nat)
    (before : list string) (header : string) (after : list (column_cell A)) :
  (forall text, text ∈ before -> PyStr.contains column_name text = false) ->
  PyStr.contains column_name header = true ->
  head (preceding_th_counts column_name seen
          ((Col_th <$> before) ++ Col_th header :: after)%list)
  = Some (seen + length before)%nat.
Proof.
  revert seen. induction before as [|b before IH]; intros seen Hb Hh.
  - cbn [fmap list_fmap app preceding_th_counts length]. rewrite Hh.
    cbn [app head]. f_equal. lia.
  - cbn [fmap list_fmap app preceding_th_counts length].
    rewrite (Hb b) by by left. cbn [app].
    rewrite IH; [f_equal; lia | | done].
    intros text Ht. apply Hb. by right.
Qed.

Lemma td_children_tds {A} (contents : list A) :
  td_children (Col_td <$> contents) = contents.
Proof. induction contents as [|c contents IH]; [reflexivity|]. cbn. by rewrite IH. Qed.

(** X25.  The cell under a header.  When the first row of the table starts
    with headers, of which the first that contains the name is the one
    in column [length before], then for a row of data cells the function
    returns the cell of that row in the same column, and the empty
    selection when the row is too short. *)
Theorem get_cell_aligned {A} (before : list string) (header : string)
    (after : list (column_cell A)) (body : list (list (column_cell A)))
    (contents : list A) (column_name : string) :
  (forall text, text ∈ before -> PyStr.contains column_name text = false) ->
  PyStr.contains column_name header = true ->
  get_cell_for_column_name
    (((Col_th <$> before) ++ Col_th header :: after)%list :: body)
    (Col_td <$> contents) column_name
  = Return (option_list (contents !! length before)).
Proof.
  intros Hb Hh. unfold get_cell_for_column_name. cbn [mbind list_bind].
  pose proof (preceding_th_counts_headers column_name 0 before header after Hb Hh)
    as Hhead.
  destruct (preceding_th_counts column_name 0 _) as [|k counts] eqn:E;
    [discriminate|].
  cbn [head app] in *. injection Hhead as ->.
  by rewrite td_children_tds.
Qed.

(** ** The default start date constant *)

Lemma iso_week_1_all :
  forallb (fun y => bool_decide (Calendar.fromisocalendar y 1 1 = iso_week_1_monday y))
    (seqZ 1 9999) = true.
Proof. vm_compute. reflexivity. Qed.

Lemma fromisocalendar_week_1 (y : Z) :
  1 <= y <= 9999 -> Calendar.fromisocalendar y 1 1 = iso_week_1_monday y.
Proof.
  intros Hy.
  assert (In y (seqZ 1 9999)) as Hin.
  { apply list_elem_of_In. apply elem_of_seqZ. lia. }
  exact (bool_decide_eq_true_1 _
           (proj1 (forallb_forall _ (seqZ 1 9999)) iso_week_1_all y Hin)).
Qed.

(** X26.  [DEFAULT_START_DATE] is the Monday that opens ISO week 1 of the
    current year: it is 1 January only when 1 January is a Monday; when
    1 January is a Tuesday, Wednesday or Thursday it is one of the last
    three days of the year before, and otherwise it is 2, 3 or 4
    January. *)
Theorem default_start_date_constant (now : datetime) :
  1 <= dt_year now <= 9999 ->
  DEFAULT_START_DATE now = iso_week_1_monday (dt_year now)
  /\ (DEFAULT_START_DATE now = mkdate (dt_year now) 1 1
      <-> new_year_weekday (dt_year now) = 0).
Proof.
  intros Hy. unfold DEFAULT_START_DATE.
  rewrite fromisocalendar_week_1 by done.
  split; [reflexivity|].
  unfold iso_week_1_monday.
  assert (0 <= new_year_weekday (dt_year now) < 7) as Hw
    by (unfold new_year_weekday; apply Z.mod_pos_bound; lia).
  destruct (new_year_weekday (dt_year now) =? 0) eqn:E0;
    [split; [intros _; lia | done]|].
  destruct (new_year_weekday (dt_year now) <=? 3) eqn:E3.
  - split; [intros H; injection H; lia | lia].
  - split; [intros H; injection H; lia | lia].
Qed.

(** ** Search form: dates and fields *)

Lemma matches_app (fmt1 fmt2 : list Strptime.directive) (st : Strptime.fields * string) :
  Strptime.matches (fmt1 ++ fmt2)%list st
  = Strptime.matches fmt1 st ≫= Strptime.matches fmt2.
Proof.
  revert st. induction fmt1 as [|d fmt1 IH]; intros st.
  - cbn [app Strptime.matches mbind list_bind]. by rewrite app_nil_r.
  - cbn [app Strptime.matches].
    induction (Strptime.step d st) as [|x xs IHxs]; [reflexivity|].
    cbn [mbind list_bind]. rewrite IH, bind_app. f_equal. apply IHxs.
Qed.

Lemma day_text_matched (d : Z) (f : Strptime.fields) (rest : string) :
  1 <= d <= 31 ->
  Strptime.matches [Strptime.Dir_d; Strptime.Dir_lit "/"]
    (f, two_digits d +:+ "/" +:+ rest)
  = [(Strptime.mkfields (Strptime.f_year f) (Strptime.f_month f) d, rest)]
  /\ String.length (two_digits d) = 2%nat.
Proof.
  intros Hd. assert (d ∈ seqZ 1 31) as Hin by (apply elem_of_seqZ; lia).
  vm_compute seqZ in Hin.
  repeat (apply elem_of_cons in Hin as [-> | Hin]; [by split|]).
  by apply elem_of_nil in Hin.
Qed.

Lemma month_text_matched (m : Z) (f : Strptime.fields) (rest : string) :
  1 <= m <= 12 ->
  Strptime.matches [Strptime.Dir_m; Strptime.Dir_lit "/"]
    (f, two_digits m +:+ "/" +:+ rest)
  = [(Strptime.mkfields (Strptime.f_year f) m (Strptime.f_day f), rest)]
  /\ String.length (two_digits m) = 2%nat.
Proof.
  intros Hm. assert (m ∈ seqZ 1 12) as Hin by (apply elem_of_seqZ; lia).
  vm_compute seqZ in Hin.
  repeat (apply elem_of_cons in Hin as [-> | Hin]; [by split|]).
  by apply elem_of_nil in Hin.
Qed.

Lemma year_text_all :
  forallb (fun y => bool_decide (Strptime.re_Y (pretty y) = [(y, "")]
                                 /\ String.length (pretty y) = 4%nat))
    (seqZ 1000 9000) = true.
Proof. vm_compute. reflexivity. Qed.

Lemma year_text_matched (y : Z) :
  1000 <= y <= 9999 ->
  Strptime.re_Y (pretty y) = [(y, "")] /\ String.length (pretty y) = 4%nat.
Proof.
  intros Hy.
  assert (In y (seqZ 1000 9000)) as Hin.
  { apply list_elem_of_In. apply elem_of_seqZ. lia. }
  exact (bool_decide_eq_true_1 _
           (proj1 (forallb_forall _ (seqZ 1000 9000)) year_text_all y Hin)).
Qed.

(** X27.  The dates of the search form round-trip.  A date of the calendar from
    the year 1000 on is written on ten characters, day, month and year
    with ["/"] between them, and reading that text back in the same
    format gives the date again. *)
Theorem search_date_roundtrip (d : date) :
  Calendar.valid_ymd (year d) (month d) (day d) = true ->
  1000 <= year d ->
  Strptime.strptime (strftime_d_m_Y d) FMT_d_m_Y
    = Return (mkdatetime (year d) (month d) (day d) 0 0 0)
  /\ String.length (strftime_d_m_Y d) = 10%nat.
Proof.
  intros Hvalid Hy.
  assert (1 <= year d <= 9999 /\ 1 <= month d <= 12 /\ 1 <= day d <= 31)
    as (Hyr & Hm & Hd).
  { unfold Calendar.valid_ymd, Calendar.days_in_month in Hvalid.
    assert (Calendar.DAYS_IN_MONTH (month d) <= 31)
      by (unfold Calendar.DAYS_IN_MONTH; repeat case_match; lia).
    destruct (_ && Calendar.is_leap _); lia. }
  destruct (year_text_matched (year d)) as [HY HYlen]; [lia|].
  unfold strftime_d_m_Y. split.
  - unfold Strptime.strptime.
    change FMT_d_m_Y with
      ([Strptime.Dir_d; Strptime.Dir_lit "/"]
       ++ [Strptime.Dir_m; Strptime.Dir_lit "/"] ++ [Strptime.Dir_Y])%list.
    rewrite matches_app.
    rewrite (proj1 (day_text_matched (day d) Strptime.fields0 _ Hd)).
    cbn [mbind list_bind]. rewrite app_nil_r, matches_app.
    rewrite (proj1 (month_text_matched (month d) _ _ Hm)).
    cbn [mbind list_bind Strptime.matches Strptime.step]. rewrite HY.
    cbn [fmap list_fmap mbind list_bind app Strptime.f_year Strptime.f_month
         Strptime.f_day Strptime.fields0].
    by rewrite Hvalid.
  - rewrite !length_append.
    rewrite (proj2 (day_text_matched (day d) Strptime.fields0 "" Hd)).
    rewrite (proj2 (month_text_matched (month d) Strptime.fields0 "" Hm)).
    by rewrite HYlen.
Qed.

(** X28.  The fields of the search form.  The form data hold the token read
    from the page (no value when the page has none), the two fixed
    selectors, the two dates as formatted, the status as C5 states, and
    no other field. *)
Theorem formdata_fields (self : IdoxSpider) (response : Response) :
  let formdata := submit_form_formdata self response in
  formdata !! "_csrf" = Some (csrf_value (page response))
  /\ formdata !! "caseAddressType" = Some (Some "Application")
  /\ formdata !! "searchType" = Some (Some "Application")
  /\ formdata !! "date(applicationValidatedStart)"
     = Some (Some (formatted_start_date self))
  /\ formdata !! "date(applicationValidatedEnd)"
     = Some (Some (formatted_end_date self))
  /\ (forall field, field ∉ form_fields -> formdata !! field = None).
Proof.
  cbv zeta. unfold submit_form_formdata, form_fields.
  case_bool_decide;
    (repeat split; try by vm_compute);
    intros field Hfield;
    repeat (rewrite lookup_insert_ne by (intros <-; apply Hfield; set_solver));
    apply lookup_empty.
Qed.

(** ** The opening of a crawl *)

(** The duplicate filter has seen nothing when the first request arrives. *)
Lemma accept_first dupefilter st lg r :
  accept dupefilter (mkCrawl st [] [] [] lg) (Out_Request r)
  = mkCrawl st [r] [fingerprint r] [] lg.
Proof.
  unfold accept. cbn [seen pending sink crawl_log spider_state app].
  rewrite (bool_decide_eq_false_2 (_ ∈ [])) by apply not_elem_of_nil.
  by rewrite andb_false_r.
Qed.

(** A request with form data is no duplicate of one without. *)
Lemma accept_form dupefilter st lg u r :
  req_formdata r <> None ->
  accept dupefilter (mkCrawl st [] [(u, None)] [] lg) (Out_Request r)
  = mkCrawl st [r] [(u, None); fingerprint r] [] lg.
Proof.
  intros Hfd. unfold accept. cbn [seen pending sink crawl_log spider_state app].
  rewrite (bool_decide_eq_false_2 (_ ∈ [_])).
  2:{ intros H%list_elem_of_singleton. unfold fingerprint in H.
      injection H as _ H. by apply Hfd. }
  by rewrite andb_false_r.
Qed.

(** X29.  A crawl opens with the search form.  After [start_requests] and the
    arrival of the start page, exactly one request is pending: it goes to
    the URL the form of the start page submits to, its callback is
    [parse_results], and it carries the form data that [submit_form]
    builds from the start page.  Nothing has reached the sink and no
    error is logged; the duplicate filter, when on, lets the request
    through even when the form submits to the start URL itself. *)
Theorem crawl_opens_with_search_form urljoin copies_meta dupefilter site self :
  let c := deliver urljoin copies_meta dupefilter site self 0
             (opened urljoin copies_meta dupefilter site self) in
  let start_page := site (start_url self) in
  (exists r,
      pending c = [r]
      /\ req_url r = form_url start_page
      /\ req_callback r = CB_parse_results
      /\ req_formdata r
         = Some (submit_form_formdata self
                   (mkResponse (start_url self) start_page 0%nat)))
  /\ sink c = []
  /\ errors (crawl_log c) = [].
Proof.
  cbv zeta. unfold opened, start_requests, scrapy_Request. run_gen.
  cbn [foldl]. rewrite accept_first.
  unfold deliver. cbn [pending app lookup list_lookup req_url req_callback req_meta call spider_state].
  unfold submit_form. run_gen.
  cbn [foldl delete list_delete seen sink crawl_log]. unfold fingerprint.
  cbn [req_url req_formdata]. rewrite accept_form by discriminate.
  cbn [pending sink crawl_log].
  split; [|split].
  - eexists. split; [reflexivity|]. by repeat split.
  - reflexivity.
  - reflexivity.
Qed.

(** ** The further properties at concrete inputs *)

Lemma no_results_stops_witness :
  let run :=
    parse_results Sample.urljoin true Sample.spider
      (Sample2.listing_response Sample2.listing_no_results) Sample.state0 in
  ended run = Return tt
  /\ yielded run = []
  /\ final run = Sample.state0
  /\ logged run
     = [mklog INFO "No applications found on https://idox.example/search"].
Proof.
  apply (no_results_stops Sample.urljoin true Sample.spider
           (Sample2.listing_response Sample2.listing_no_results) Sample.state0
           _ _ eq_refl); reflexivity.
Defined.

Lemma single_application_short_circuit_witness :
  let run :=
    parse_results Sample.urljoin true Sample.spider Sample2.summary_response
      Sample.state0 in
  let summary :=
    parse_details_summary_tab true Sample.spider Sample2.summary_response
      Sample.state0 in
  ended run = ended summary
  /\ final run = final summary
  /\ yielded run = yielded summary
  /\ logged run
     = mklog INFO ("Only one application found on " +:+ Sample.summary_url)
       :: logged summary.
Proof.
  apply (single_application_short_circuit Sample.urljoin true Sample.spider
           Sample2.summary_response Sample.state0); [reflexivity | cbn; lia].
Defined.


Lemma page_cut_at_limit_witness :
  let run :=
    parse_results Sample.urljoin true Sample.spider_limit_2
      (Sample2.listing_response Sample.listing_of_three) Sample.state0 in
  ended run = Return tt
  /\ applications_scraped (final run) = 2
  /\ target <$> yielded run
     = [Some ("https://idox.example/app?keyVal=K1&activeTab=summary",
              CB_parse_details_summary_tab);
        Some ("https://idox.example/app?keyVal=K1&activeTab=details",
              CB_parse_details_further_information_tab);
        Some ("https://idox.example/app?keyVal=K2&activeTab=summary",
              CB_parse_details_summary_tab);
        Some ("https://idox.example/app?keyVal=K2&activeTab=details",
              CB_parse_details_further_information_tab)].
Proof.
  apply (page_cut_at_limit Sample.urljoin true Sample.spider_limit_2
           (Sample2.listing_response Sample.listing_of_three)
           _ _ Sample.state0 eq_refl eq_refl eq_refl).
  repeat constructor.
Defined.

Lemma detail_requests_context_witness :
  let run :=
    _parse_single_result Sample.urljoin false Sample.spider Sample2.row_K1
      (Sample2.listing_response Sample.listing_page) Sample.state0 in
  let context :=
    mkMeta (Some "K1") (Some Sample.listing_url) (Some 10) (Some 1) None None in
  exists r1 r2,
    yielded run = [Out_Request r1; Out_Request r2]
    /\ dict_at (final run) (req_meta r1) = context
    /\ dict_at (final run) (req_meta r2) = context
    /\ (req_meta r1 = req_meta r2 <-> false = false).
Proof.
  apply (detail_requests_context Sample.urljoin false Sample.spider Sample2.row_K1
           (Sample2.listing_response Sample.listing_page) Sample.state0 "K1");
    [reflexivity | discriminate | reflexivity].
Defined.

Lemma summary_first_arrival_witness :
  let run :=
    parse_details_summary_tab true Sample.spider Sample2.summary_response
      Sample.state0 in
  ended run = Return tt
  /\ exists r,
       yielded run = [Out_Request r]
       /\ req_url r = Sample.summary_url
       /\ req_callback r = CB_parse_details_further_information_tab
       /\ meta_details_summary (dict_at (final run) (req_meta r))
          = Some Sample2.summary
       /\ meta_details_further_information (dict_at (final run) (req_meta r)) = None.
Proof.
  apply (summary_first_arrival true Sample.spider Sample2.summary_response
           Sample.state0 _ _ (Some (mkdatetime 2024 1 1 0 0 0)) None eq_refl);
    reflexivity.
Defined.

Lemma further_first_arrival_witness :
  let run :=
    parse_details_further_information_tab true Sample.spider Sample2.details_response
      Sample.state0 in
  ended run = Return tt
  /\ exists r,
       yielded run = [Out_Request r]
       /\ req_url r = Sample.details_url
       /\ req_callback r = CB_parse_details_summary_tab
       /\ meta_details_further_information (dict_at (final run) (req_meta r))
          = Some Sample2.further
       /\ meta_details_summary (dict_at (final run) (req_meta r)) = None.
Proof.
  apply (further_first_arrival true Sample.spider Sample2.details_response
           Sample.state0 _ _ eq_refl); reflexivity.
Defined.

Lemma further_information_merges_witness :
  let run :=
    parse_details_further_information_tab true Sample.spider Sample2.details_response
      Sample2.state_with_summary in
  ended run = Return tt
  /\ yielded run = [Out_Generator 0%nat]
  /\ create_planning_application_item_body Sample.spider (dict_at (final run) 0%nat)
     = Return [Sample.merged].
Proof.
  apply (further_information_merges true Sample.spider Sample2.details_response
           Sample2.state_with_summary _ _ Sample2.summary eq_refl); reflexivity.
Defined.

Lemma summary_tab_second_raises_witness :
  let run :=
    parse_details_summary_tab true Sample.spider Sample2.summary_response
      Sample2.state_with_further in
  ended run = Raise TypeError
  /\ yielded run = []
  /\ meta_details_summary (dict_at (final run) (meta Sample2.summary_response))
     = Some Sample2.summary
  /\ meta_details_further_information
       (dict_at (final run) (meta Sample2.summary_response))
     = meta_details_further_information
         (dict_at Sample2.state_with_further (meta Sample2.summary_response))
  /\ applications_scraped (final run)
     = applications_scraped Sample2.state_with_further.
Proof.
  apply (summary_tab_second_raises true Sample.spider Sample2.summary_response
           Sample2.state_with_further _ _ (Some (mkdatetime 2024 1 1 0 0 0)) None
           eq_refl); [reflexivity | reflexivity | by eexists].
Defined.

Lemma keyval_extracted_witness :
  keyval_of "https://idox.example/app?keyVal=K1&back=search%3FkeyVal=K0" = Return "K1".
Proof.
  apply (keyval_extracted "https://idox.example/app?" "K1"
           "&back=search%3FkeyVal=K0");
    [reflexivity | reflexivity | reflexivity | right; left; by eexists].
Defined.

Lemma tab_links_derived_witness :
  _get_single_result_details_further_information_url Sample.urljoin Sample2.row_K1
    (Sample2.listing_response Sample.listing_page)
  = "https://idox.example/app?keyVal=K1&activeTab=details"
  /\ _get_single_result_documents_url Sample.urljoin Sample2.row_K1
       (Sample2.listing_response Sample.listing_page)
     = "https://idox.example/app?keyVal=K1&activeTab=documents".
Proof.
  destruct (tab_links_derived Sample.urljoin Sample2.row_K1
              (Sample2.listing_response Sample.listing_page)
              "https://idox.example/app?keyVal=K1&" "" eq_refl eq_refl eq_refl)
    as (H1 & _ & _ & H4 & _).
  split; [exact H1 | exact H4].
Defined.

Lemma tab_links_without_marker_witness :
  detail_targets Sample.urljoin (Sample2.listing_response Sample.listing_page)
    Sample2.row_without_tab
  = [Some ("https://idox.example/app?keyVal=K1", CB_parse_details_summary_tab);
     Some ("https://idox.example/app?keyVal=K1",
           CB_parse_details_further_information_tab)].
Proof.
  apply (tab_links_without_marker Sample.urljoin Sample2.row_without_tab
           (Sample2.listing_response Sample.listing_page) eq_refl).
Defined.

Lemma status_of_value_roundtrip_witness :
  applicationStatus_of_value "Decided" = Return DECIDED
  /\ applicationStatus_of_value "decided" = Raise ValueError.
Proof.
  destruct status_of_value_roundtrip as (_ & H2 & H3). split.
  - by apply H2.
  - apply H3. by intros [].
Defined.

Lemma init_accepts_ordered_dates_witness :
  __init__ Sample.strptime_Y_m_d Sample.now Sample2.settings_one_day
  = Return (mkSpider "sample" "https://idox.example/start" 10 true
              (mkdate 2024 3 1) (mkdate 2024 3 1) ALL).
Proof.
  apply (init_accepts_ordered_dates Sample.strptime_Y_m_d Sample.now
           Sample2.settings_one_day); [reflexivity.. | unfold date_le; cbn; lia].
Defined.

Lemma init_fails_fast_witness :
  __init__ Sample.strptime_Y_m_d Sample.now Sample2.settings_bad_date
    = Raise ValueError
  /\ __init__ Sample.strptime_Y_m_d Sample.now Sample2.settings_bad_status
     = Raise ValueError.
Proof.
  split.
  - apply (proj1 (init_fails_fast Sample.strptime_Y_m_d Sample.now
                    Sample2.settings_bad_date)). reflexivity.
  - apply (proj2 (proj2 (init_fails_fast Sample.strptime_Y_m_d Sample.now
                           Sample2.settings_bad_status))
             (mkdate 2024 3 1) (mkdate 2024 4 1) "decided");
      [reflexivity.. | by intros []].
Defined.

Lemma weekday_not_checked_witness :
  Strptime.strptime "Mon 01 Jan 2024" Strptime.FMT_a_d_b_Y
  = Strptime.strptime "SUN 01 Jan 2024" Strptime.FMT_a_d_b_Y.
Proof.
  apply (weekday_not_checked "Mon" "SUN" " 01 Jan 2024"); vm_compute;
    repeat constructor.
Defined.

Lemma lookup_value_from_table_witness :
  PyStr.lstrip "1 High Street" = "1 High Street"
  /\ PyStr.rstrip "1 High Street" = "1 High Street".
Proof.
  apply (lookup_value_from_table
           [[Th ["Reference"]; Td ["24/1234/FUL"]];
            [Th ["Address"]; Td [" 1 High Street "]]] "Address" "1 High Street").
  reflexivity.
Defined.

Lemma arcgis_polygon_only_for_matching_key_witness :
  parse_idox_arcgis Sample.spider (Sample2.arcgis_response "K1")
  = mkArcgisRun (Return tt)
      [mkPolygon "https://gis.example/query" "sample" (Some "24/1234/FUL")
         Sample2.feature_K1] [].
Proof.
  destruct (arcgis_polygon_only_for_matching_key Sample.spider
              (Sample2.arcgis_response "K1")
              (mkPolygon "https://gis.example/query" "sample" (Some "24/1234/FUL")
                 Sample2.feature_K1))
    as (? & ? & ? & ? & ? & ? & _ & _ & _ & _ & _ & _ & _ & _ & H).
  - vm_compute. by left.
  - exact H.
Defined.

Lemma arcgis_keyval_mismatch_witness :
  parse_idox_arcgis Sample.spider (Sample2.arcgis_response "K2")
  = mkArcgisRun (Return tt) []
      [mklog ERROR "KEYVAL mismatch in response from https://gis.example/query"].
Proof.
  apply (arcgis_keyval_mismatch Sample.spider (Sample2.arcgis_response "K2")
           Sample2.feature_collection (JArray [Sample2.feature_K1]) 0
           Sample2.feature_K1 (JObject [("type", JString "Polygon")])
           (JObject [("KEYVAL", JString "K1")]) (JString "K1") "K2");
    try reflexivity. discriminate.
Defined.

Lemma arcgis_unguarded_shapes_witness :
  parse_idox_arcgis Sample.spider
    (mkArcgisResponse "https://gis.example/query" (Return (JArray [])) (Some "K1") None)
  = mkArcgisRun (Raise TypeError) [] []
  /\ parse_idox_arcgis Sample.spider
       (mkArcgisResponse "https://gis.example/query"
          (Return (JObject [("error", JString "bad query")])) (Some "K1") None)
     = mkArcgisRun (Raise KeyError) [] [].
Proof.
  split.
  - apply (proj1 (arcgis_unguarded_shapes Sample.spider _) (JArray []));
      [reflexivity | discriminate].
  - apply (proj1 (proj2 (arcgis_unguarded_shapes Sample.spider _))
             [("error", JString "bad query")]); reflexivity.
Defined.


Lemma get_cell_aligned_witness :
  get_cell_for_column_name Sample2.documents_table
    (Col_td <$> ["01 Jan 2024"; "Plans"; "Site plan"]) "Document Type"
  = Return ["Plans"].
Proof.
  apply (get_cell_aligned ["Date Published"] "Document Type" [Col_th "Description"]
           [[Col_td "01 Jan 2024"; Col_td "Plans"; Col_td "Site plan"]]
           ["01 Jan 2024"; "Plans"; "Site plan"] "Document Type");
    [|reflexivity].
  intros text Ht. apply list_elem_of_singleton in Ht as ->. reflexivity.
Defined.

Lemma default_start_date_constant_witness :
  DEFAULT_START_DATE Sample.now = mkdate 2025 12 29
  /\ (DEFAULT_START_DATE Sample.now = mkdate 2026 1 1 <-> new_year_weekday 2026 = 0).
Proof.
  apply (default_start_date_constant Sample.now). cbn. lia.
Defined.

Lemma search_date_roundtrip_witness :
  Strptime.strptime "29/02/2024" FMT_d_m_Y = Return (mkdatetime 2024 2 29 0 0 0)
  /\ String.length "29/02/2024" = 10%nat.
Proof.
  apply (search_date_roundtrip (mkdate 2024 2 29)); [reflexivity | cbn; lia].
Defined.

Lemma formdata_fields_witness :
  submit_form_formdata Sample.spider (Sample2.listing_response Sample.listing_page)
    !! "caseType"
  = None.
Proof.
  apply (formdata_fields Sample.spider (Sample2.listing_response Sample.listing_page)).
  unfold form_fields. intros H.
  repeat (apply elem_of_cons in H as [H | H]; [discriminate H|]).
  by apply elem_of_nil in H.
Defined.
